(** * BluezDevice: the bluez DBus device object

    A shallow embedding of [Adafruit_BluefruitLE/bluez_dbus/device.py].

    The Python methods of [BluezDevice] become computations in a small
    state-and-exception monad.  The state holds the instance attributes
    the methods mutate (the two [threading.Event] latches and the RSSI
    backup) together with the log of what the calling thread did to the
    outside world.  The outside world itself (the answers of the bus, the
    notifications the dispatch thread delivers, the readings of the clock)
    is an [environment] of oracles, each indexed by the number of calls of
    its kind made so far. *)

From Stdlib Require Import QArith Ascii.
From stdpp Require Import gmap strings list.

Open Scope string_scope.

(** ** DBus values and Python exceptions *)

(** [dbus.exceptions.DBusException]: the error name of the reply and its
    text. *)
Record DBusException := mkDBusException {
  get_dbus_name : string;
  get_dbus_message : string
}.

(** The Python exceptions that appear in this module. *)
Inductive exn :=
| DBusExc (ex : DBusException)
| KeyError (key : string)
| AttributeError (attr : string)
| RuntimeError (msg : string)
| ValueError (msg : string)
| TypeError (msg : string).

(** [uuid.UUID] compares and hashes by its 128-bit integer. *)
Definition UUID := N.

(** The shapes of property values of [org.bluez.Device1] that the module
    looks into: booleans ([Connected]), integers ([RSSI]), strings and
    object paths ([Address], [Name], [Adapter]), arrays of strings
    ([UUIDs]) and dictionaries from strings to byte arrays
    ([ServiceData]). *)
Inductive dbus_value :=
| DBoolean (b : bool)
| DInt (z : Z)
| DString (s : string)
| DStrArray (xs : list string)
| DByteDict (d : gmap string (list Byte.byte)).

(** Python's [v == n] for an integer literal [n]: [dbus.Boolean] is an
    [int] subclass, so [True == 1] and [False == 0]. *)
Definition py_eq_int (v : dbus_value) (n : Z) : bool :=
  match v with
  | DBoolean b => Z.eqb (if b then 1 else 0) n
  | DInt z => Z.eqb z n
  | _ => false
  end.

Fixpoint chars_of (s : string) : list string :=
  match s with
  | EmptyString => []
  | String c rest => String c EmptyString :: chars_of rest
  end.

(** [[str(x) for x in v]]: the elements of an array, the characters of a
    string, the keys of a dictionary; a boolean or an integer is not
    iterable. *)
Definition py_iter_str (v : dbus_value) : exn + list string :=
  match v with
  | DStrArray xs => inr xs
  | DString s => inr (chars_of s)
  | DByteDict d => inr (fst <$> map_to_list d)
  | DBoolean _ | DInt _ => inl (TypeError "object is not iterable")
  end.

(** [v[key]] for a string [key]: only a dictionary can be indexed by a
    string, and a missing key is a [KeyError]. *)
Definition py_getitem (v : dbus_value) (key : string) : exn + list Byte.byte :=
  match v with
  | DByteDict d =>
      match d !! key with
      | Some data => inr data
      | None => inl (KeyError key)
      end
  | DStrArray _ | DString _ => inl (TypeError "indices must be integers")
  | DBoolean _ | DInt _ => inl (TypeError "object is not subscriptable")
  end.

(** ** The outside world *)

Inductive latch := connected_signal | disconnected_signal.

(** One [PropertiesChanged] signal. *)
Record notification := mkNotification {
  n_iface : string;
  n_changed_props : gmap string dbus_value;
  n_invalidated_props : list string
}.

(** The oracles.  [props_Get k iface name] answers the [k]-th call of
    [self._props.Get]; [device_reply k] answers the [k]-th call of
    [self._device.Connect] or [self._device.Disconnect] ([None]: accepted);
    [dispatched k] lists the notifications the dispatch thread hands to
    [_prop_changed] while the calling thread sits in its [k]-th blocking
    call (a [Connect], a [Disconnect], or an [Event.wait], where it lists
    those that arrive before the wait ends); [clock k] is the [k]-th
    reading of [time.time()]; [char_uuids k] is the [k]-th enumeration of the
    characteristic objects under the device path, each wrapped and asked
    for its [uuid]. *)
Record environment := mkEnvironment {
  props_Get : nat -> string -> string -> DBusException + dbus_value;
  device_reply : nat -> option DBusException;
  dispatched : nat -> list notification;
  clock : nat -> Q;
  char_uuids : nat -> exn + list UUID
}.

Inductive log_record :=
| LogDisconnected
| LogDisconnectException (ex : DBusException)
| LogPropGetFail (name : string) (tentative : nat) (e : DBusException).

(** What the calling thread does, in order. *)
Inductive event :=
| EvGet (iface name : string)
| EvConnect
| EvDisconnect
| EvClear (l : latch)
| EvWait (l : latch) (timeout_sec : Q)
| EvSleep (secs : Z)
| EvTime
| EvGetObjects (iface : string)
| EvLog (r : log_record).

(** ** The device *)

Record state := mkState {
  _connected : bool;
  _disconnected : bool;
  backup_rssi : option dbus_value;
  n_Get : nat;
  n_call : nat;
  n_blocked : nat;
  n_time : nat;
  n_objects : nat;
  trace : list event
}.

Definition set_flag (l : latch) (b : bool) (s : state) : state :=
  match l with
  | connected_signal =>
      mkState b (_disconnected s) (backup_rssi s) (n_Get s) (n_call s)
              (n_blocked s) (n_time s) (n_objects s) (trace s)
  | disconnected_signal =>
      mkState (_connected s) b (backup_rssi s) (n_Get s) (n_call s)
              (n_blocked s) (n_time s) (n_objects s) (trace s)
  end.

Definition flag (l : latch) (s : state) : bool :=
  match l with
  | connected_signal => _connected s
  | disconnected_signal => _disconnected s
  end.

Definition set_backup_rssi (v : dbus_value) (s : state) : state :=
  mkState (_connected s) (_disconnected s) (Some v) (n_Get s) (n_call s)
          (n_blocked s) (n_time s) (n_objects s) (trace s).

Definition record (ev : event) (s : state) : state :=
  mkState (_connected s) (_disconnected s) (backup_rssi s) (n_Get s) (n_call s)
          (n_blocked s) (n_time s) (n_objects s) (trace s ++ [ev])%list.

Definition tick_Get (s : state) : state :=
  mkState (_connected s) (_disconnected s) (backup_rssi s) (S (n_Get s)) (n_call s)
          (n_blocked s) (n_time s) (n_objects s) (trace s).

Definition tick_call (s : state) : state :=
  mkState (_connected s) (_disconnected s) (backup_rssi s) (n_Get s) (S (n_call s))
          (n_blocked s) (n_time s) (n_objects s) (trace s).

Definition tick_blocked (s : state) : state :=
  mkState (_connected s) (_disconnected s) (backup_rssi s) (n_Get s) (n_call s)
          (S (n_blocked s)) (n_time s) (n_objects s) (trace s).

Definition tick_time (s : state) : state :=
  mkState (_connected s) (_disconnected s) (backup_rssi s) (n_Get s) (n_call s)
          (n_blocked s) (S (n_time s)) (n_objects s) (trace s).

Definition tick_objects (s : state) : state :=
  mkState (_connected s) (_disconnected s) (backup_rssi s) (n_Get s) (n_call s)
          (n_blocked s) (n_time s) (S (n_objects s)) (trace s).

(** ** The monad *)

Inductive outcome (A : Type) :=
| Return (a : A)
| Raise (e : exn).
Arguments Return {A} a.
Arguments Raise {A} e.

Definition M (A : Type) : Type := state -> outcome A * state.

Definition ret {A} (a : A) : M A := fun s => (Return a, s).

Definition raise {A} (e : exn) : M A := fun s => (Raise e, s).

Definition bind {A B} (m : M A) (k : A -> M B) : M B :=
  fun s =>
    match m s with
    | (Return a, s') => k a s'
    | (Raise e, s') => (Raise e, s')
    end.

Declare Scope py_scope.
Delimit Scope py_scope with py.
Notation "x <- m ;; k" := (bind m (fun x => k))
  (at level 100, m at next level, right associativity) : py_scope.
Notation "m ;; k" := (bind m (fun _ => k))
  (at level 100, right associativity) : py_scope.
Open Scope py_scope.

(** [try: m  except: h]: whatever [m] did to the state before it raised
    stays done. *)
Definition try_except {A} (m : M A) (h : exn -> M A) : M A :=
  fun s =>
    match m s with
    | (Return a, s') => (Return a, s')
    | (Raise e, s') => h e s'
    end.

(** [try: m  except dbus.exceptions.DBusException as ex: h ex]: any other
    exception passes through. *)
Definition try_except_DBus {A} (m : M A) (h : DBusException -> M A) : M A :=
  try_except m (fun e => match e with DBusExc ex => h ex | _ => raise e end).

Definition lift {A} (r : exn + A) : M A :=
  match r with
  | inr a => ret a
  | inl e => raise e
  end.

(** [[f(x) for x in l]], left to right; the first exception ends it. *)
Fixpoint list_comp {A B} (f : A -> M B) (l : list A) : M (list B) :=
  match l with
  | [] => ret []
  | x :: rest => y <- f x ;; ys <- list_comp f rest ;; ret (y :: ys)
  end.

Definition _INTERFACE : string := "org.bluez.Device1".
Definition _CHARACTERISTIC_INTERFACE : string := "org.bluez.GattCharacteristic1".
Definition InvalidArgs : string := "org.freedesktop.DBus.Error.InvalidArgs".

Definition DBUS_METHOD_ACCESS_TENTATIVE : nat := 3.
Definition DBUS_METHOD_ACCESS_TIMEOUT : Z := 1.

Section Device.

(** [uuid.UUID(hex)] ([None]: the [ValueError] of a badly formed string)
    and [str] of a [uuid.UUID], from the Python library. *)
Variable uuid_UUID : string -> option UUID.
Variable uuid_str : UUID -> string.

Variable E : environment.

(** *** Primitives *)

(** [threading.Event.set], called by the notification handler only. *)
Definition Event_set (l : latch) : M unit :=
  fun s => (Return tt, set_flag l true s).

(** [threading.Event.clear]. *)
Definition Event_clear (l : latch) : M unit :=
  fun s => (Return tt, record (EvClear l) (set_flag l false s)).

(** [logger.debug], [logger.error] and [logging.error]. *)
Definition logger (r : log_record) : M unit :=
  fun s => (Return tt, record (EvLog r) s).

(** [time.sleep(secs)]. *)
Definition time_sleep (secs : Z) : M unit :=
  fun s => (Return tt, record (EvSleep secs) s).

(** [time.time()], in seconds; the floating-point readings are taken as
    rationals. *)
Definition time_time : M Q :=
  fun s => (Return (clock E (n_time s)), tick_time (record EvTime s)).

(** [self._props.Get(iface, name)]. *)
Definition Get (iface name : string) : M dbus_value :=
  fun s =>
    let s' := tick_Get (record (EvGet iface name) s) in
    match props_Get E (n_Get s) iface name with
    | inr v => (Return v, s')
    | inl ex => (Raise (DBusExc ex), s')
    end.

(** *** [_prop_changed] *)

Definition _prop_changed (iface : string)
    (changed_props : gmap string dbus_value)
    (invalidated_props : list string) : M unit :=
  if negb (String.eqb iface _INTERFACE) then ret tt
  else
    (if match changed_props !! "Connected" with
        | Some v => py_eq_int v 1
        | None => false
        end
     then Event_set connected_signal else ret tt) ;;
    (if match changed_props !! "Connected" with
        | Some v => py_eq_int v 0
        | None => false
        end
     then Event_set disconnected_signal else ret tt).

(** The dispatch thread runs the handler on each notification in turn. *)
Fixpoint deliver (ns : list notification) (s : state) : state :=
  match ns with
  | [] => s
  | n :: rest =>
      deliver rest
        (snd (_prop_changed (n_iface n) (n_changed_props n)
                            (n_invalidated_props n) s))
  end.

(** The calling thread blocks for the [n_blocked]-th time: the
    notifications of that slot are delivered meanwhile.  Deliveries at
    any other moment show in the latches only, and every statement below
    takes the latches as it finds them. *)
Definition blocked (s : state) : state :=
  tick_blocked (deliver (dispatched E (n_blocked s)) s).

(** [threading.Event.wait(timeout)]: true unless the flag is still clear
    when the wait ends. *)
Definition Event_wait (l : latch) (timeout_sec : Q) : M bool :=
  fun s =>
    let s' := blocked (record (EvWait l timeout_sec) s) in
    (Return (flag l s'), s').

(** [self._device.Connect()] and [self._device.Disconnect()]. *)
Definition device_call (ev : event) : M unit :=
  fun s =>
    let s' := tick_call (blocked (record ev s)) in
    match device_reply E (n_call s) with
    | None => (Return tt, s')
    | Some ex => (Raise (DBusExc ex), s')
    end.

Definition Connect : M unit := device_call EvConnect.
Definition Disconnect : M unit := device_call EvDisconnect.

(** [map(BluezGattCharacteristic, get_provider()._get_objects(
    _CHARACTERISTIC_INTERFACE, self._device.object_path))] followed by
    [map(lambda x: x.uuid, chars)]. *)
Definition get_char_uuids : M (list UUID) :=
  fun s =>
    let s' := tick_objects (record (EvGetObjects _CHARACTERISTIC_INTERFACE) s) in
    match char_uuids E (n_objects s) with
    | inr us => (Return us, s')
    | inl e => (Raise e, s')
    end.

(** [uuid.UUID(x)]. *)
Definition parse_UUID (x : string) : M UUID :=
  match uuid_UUID x with
  | Some u => ret u
  | None => raise (ValueError "badly formed hexadecimal UUID string")
  end.

(** [self.backup_rssi], read: an [AttributeError] while the attribute is
    not bound. *)
Definition getattr_backup_rssi : M dbus_value :=
  fun s =>
    match backup_rssi s with
    | Some v => (Return v, s)
    | None => (Raise (AttributeError "backup_rssi"), s)
    end.

(** [self.backup_rssi = v]. *)
Definition setattr_backup_rssi (v : dbus_value) : M unit :=
  fun s => (Return tt, set_backup_rssi v s).

(** *** [connect] and [disconnect] *)

Definition ConnectTimeout : exn :=
  RuntimeError "Exceeded timeout waiting to connect to device!".

Definition DisconnectTimeout : exn :=
  RuntimeError "Exceeded timeout waiting to disconnect from device!".

Definition connect (timeout_sec : Q) : M unit :=
  Event_clear connected_signal ;;
  Connect ;;
  ok <- Event_wait connected_signal timeout_sec ;;
  if negb ok then raise ConnectTimeout else ret tt.

(** The [return] inside the handler leaves the method; the handler hands
    [false] to the code after the [try]. *)
Definition disconnect (timeout_sec : Q) : M unit :=
  Event_clear disconnected_signal ;;
  sent <- try_except_DBus
            (Disconnect ;; logger LogDisconnected ;; ret true)
            (fun ex => logger (LogDisconnectException ex) ;; ret false) ;;
  if sent then
    ok <- Event_wait disconnected_signal timeout_sec ;;
    if negb ok then raise DisconnectTimeout else ret tt
  else ret tt.

(** *** [advertised] and [advertised_data] *)

Definition advertised : M (list UUID) :=
  let uuids := DStrArray [] in
  uuids <- try_except_DBus
             (Get _INTERFACE "UUIDs")
             (fun ex =>
                if negb (String.eqb (get_dbus_name ex) InvalidArgs)
                then raise (DBusExc ex)
                else ret uuids) ;;
  xs <- lift (py_iter_str uuids) ;;
  list_comp parse_UUID xs.

(** [b'' + b1 + b2 + ...] *)
Definition concat_bytes (bytearray : list (list Byte.byte)) : list Byte.byte :=
  fold_left (fun bytestring b => (bytestring ++ b)%list) bytearray [].

Definition advertised_data (service_uuid : UUID) : M (option (list Byte.byte)) :=
  try_except_DBus
    (all_service_uuids <- Get _INTERFACE "ServiceData" ;;
     dbus_data <- lift (py_getitem all_service_uuids (uuid_str service_uuid)) ;;
     let bytearray := map (fun v => [v]) dbus_data in
     ret (Some (concat_bytes bytearray)))
    (fun ex =>
       if negb (String.eqb (get_dbus_name ex) InvalidArgs)
       then raise (DBusExc ex)
       else ret None).

(** *** [discover] *)

(** One trip around the [while True]: [Some b] when the method returns
    [b], [None] when the loop goes round again. *)
Definition discover_poll (expected_services expected_chars : gset UUID)
    (start timeout_sec : Q) : M (option bool) :=
  adv <- advertised ;;
  let actual_services : gset UUID := list_to_set adv in
  chars <- get_char_uuids ;;
  let actual_chars : gset UUID := list_to_set chars in
  if bool_decide (expected_services ⊆ actual_services)
     && bool_decide (expected_chars ⊆ actual_chars)
  then ret (Some true)
  else
    now <- time_time ;;
    if Qle_bool timeout_sec (now - start) then ret (Some false)
    else time_sleep 1 ;; ret None.

(** The loop, cut off after [fuel] trips ([None]: still looping). *)
Fixpoint discover_loop (fuel : nat) (expected_services expected_chars : gset UUID)
    (start timeout_sec : Q) (s : state) : option (outcome bool * state) :=
  match fuel with
  | O => None
  | S fuel' =>
      match discover_poll expected_services expected_chars start timeout_sec s with
      | (Return (Some b), s') => Some (Return b, s')
      | (Return None, s') =>
          discover_loop fuel' expected_services expected_chars start timeout_sec s'
      | (Raise e, s') => Some (Raise e, s')
      end
  end.

Definition discover (fuel : nat) (service_uuids char_uuids : list UUID)
    (timeout_sec : Q) (s : state) : option (outcome bool * state) :=
  let expected_services : gset UUID := list_to_set service_uuids in
  let expected_chars : gset UUID := list_to_set char_uuids in
  match time_time s with
  | (Return start, s') =>
      discover_loop fuel expected_services expected_chars start timeout_sec s'
  | (Raise e, s') => Some (Raise e, s')
  end.

(** *** Property accessors *)

(** The [for i in range(0, DBUS_METHOD_ACCESS_TENTATIVE)] of [_prop_get],
    over the values of [i] still to come. *)
Fixpoint _prop_get_loop (name : string) (range : list nat)
    (last_exception : option DBusException) : M dbus_value :=
  match range with
  | [] =>
      match last_exception with
      | Some e => raise (DBusExc e)
      | None => raise (TypeError "exceptions must derive from BaseException")
      end
  | i :: rest =>
      r <- try_except_DBus
             (v <- Get _INTERFACE name ;; ret (inr v))
             (fun e =>
                logger (LogPropGetFail name i e) ;;
                time_sleep DBUS_METHOD_ACCESS_TIMEOUT ;;
                ret (inl e)) ;;
      match r with
      | inr v => ret v
      | inl e => _prop_get_loop name rest (Some e)
      end
  end.

Definition _prop_get (name : string) : M dbus_value :=
  _prop_get_loop name (seq 0 DBUS_METHOD_ACCESS_TENTATIVE) None.

Definition id : M dbus_value := _prop_get "Address".

Definition name : M (option dbus_value) :=
  try_except (v <- Get _INTERFACE "Name" ;; ret (Some v)) (fun _ => ret None).

Definition is_connected : M dbus_value := _prop_get "Connected".

Definition rssi : M dbus_value :=
  try_except
    (v <- Get _INTERFACE "RSSI" ;;
     setattr_backup_rssi v ;;
     getattr_backup_rssi)
    (fun _ => getattr_backup_rssi).

Definition _adapter : M dbus_value := _prop_get "Adapter".

End Device.

(** [BluezDevice(dbus_obj)]: both latches clear, no [backup_rssi]
    attribute, nothing done yet. *)
Definition __init__ : state := mkState false false None 0 0 0 0 0 [].

(** ** Reading states and traces *)

(** Whether the handler sets latch [l] on notification [n]. *)
Definition fires (l : latch) (n : notification) : bool :=
  String.eqb (n_iface n) _INTERFACE
  && match n_changed_props n !! "Connected" with
     | Some v =>
         py_eq_int v (match l with connected_signal => 1 | disconnected_signal => 0 end)
     | None => false
     end.

Definition latch_eqb (a b : latch) : bool :=
  match a, b with
  | connected_signal, connected_signal
  | disconnected_signal, disconnected_signal => true
  | _, _ => false
  end.

(** Whether [ev] is the calling thread clearing or waiting on latch [l]. *)
Definition touches (l : latch) (ev : event) : bool :=
  match ev with
  | EvClear l' | EvWait l' _ => latch_eqb l l'
  | _ => false
  end.

Definition is_read (ev : event) : bool :=
  match ev with EvGet _ _ => true | _ => false end.

Definition is_sleep (ev : event) : bool :=
  match ev with EvSleep _ => true | _ => false end.

(** One failed trip around the loop of [_prop_get]: the read, the log
    line, the sleep. *)
Definition failed_attempt (name : string) (i : nat) (e : DBusException) : list event :=
  [EvGet _INTERFACE name; EvLog (LogPropGetFail name i e);
   EvSleep DBUS_METHOD_ACCESS_TIMEOUT].

(** The two queries of a poll, and the whole of a poll that neither
    succeeds nor runs out of time. *)
Definition poll_queries : list event :=
  [EvGet _INTERFACE "UUIDs"; EvGetObjects _CHARACTERISTIC_INTERFACE].

Definition idle_poll : list event :=
  (poll_queries ++ [EvTime; EvSleep 1])%list.

Definition after_queries (s : state) : state :=
  tick_objects (record (EvGetObjects _CHARACTERISTIC_INTERFACE)
    (tick_Get (record (EvGet _INTERFACE "UUIDs") s))).

Definition after_idle_poll (s : state) : state :=
  record (EvSleep 1) (tick_time (record EvTime (after_queries s))).

(** What a poll of [discover] sees. *)
Section Polls.

Variable uuid_UUID : string → option UUID.
Variable E : environment.

(** The outcome of [self.advertised] when it makes the [g]-th read of the
    bus. *)
Definition seen_services (g : nat) : outcome (list UUID) :=
  fst (advertised uuid_UUID E (mkState false false None g 0 0 0 0 [])).

(** The comparison made by the poll that makes the [g]-th read of the bus
    and the [o]-th enumeration of characteristics ([None]: one of the two
    raised). *)
Definition poll_result (expected_services expected_chars : gset UUID)
    (g o : nat) : option bool :=
  match seen_services g, char_uuids E o with
  | Return adv, inr chars =>
      Some (bool_decide (expected_services ⊆ list_to_set adv)
            && bool_decide (expected_chars ⊆ list_to_set chars))
  | _, _ => None
  end.

End Polls.

(** ** Sample worlds

    Concrete environments on which the theorems below are exercised. *)

(** The canonical text of a UUID, 32 lower-case hexadecimal digits in
    groups of 8-4-4-4-12, standing in for Python's [str(uuid.UUID)] and
    [uuid.UUID(hex)] where a concrete pair is needed. *)
Definition hex_digit (d : N) : ascii :=
  nth (N.to_nat d) (String.list_ascii_of_string "0123456789abcdef") "0"%char.

Fixpoint hex_of (width : nat) (n : N) (acc : string) : string :=
  match width with
  | O => acc
  | S w => hex_of w (N.div n 16) (String (hex_digit (N.modulo n 16)) acc)
  end.

Definition canonical_str (u : UUID) : string :=
  let h := hex_of 32 u "" in
  String.substring 0 8 h ++ "-" ++ String.substring 8 4 h ++ "-" ++ String.substring 12 4 h
    ++ "-" ++ String.substring 16 4 h ++ "-" ++ String.substring 20 12 h.

Definition hex_value (c : ascii) : option N :=
  let n := N_of_ascii c in
  if N.leb 48 n && N.leb n 57 then Some (n - 48)%N
  else if N.leb 97 n && N.leb n 102 then Some (n - 87)%N
  else if N.leb 65 n && N.leb n 70 then Some (n - 55)%N
  else None.

Fixpoint hex_fold (cs : list ascii) (acc : N) (count : nat) : option (N * nat) :=
  match cs with
  | [] => Some (acc, count)
  | c :: rest =>
      if Ascii.eqb c "-" then hex_fold rest acc count
      else match hex_value c with
           | Some d => hex_fold rest (acc * 16 + d)%N (S count)
           | None => None
           end
  end.

Definition canonical_parse (x : string) : option UUID :=
  match hex_fold (String.list_ascii_of_string x) 0%N O with
  | Some (n, 32) => Some n
  | _ => None
  end.

(** The Battery Service, [0000180f-0000-1000-8000-00805f9b34fb]. *)
Definition BATTERY_UUID : UUID := 0x0000180f00001000800000805f9b34fb%N.

(** The UART service of the Bluefruit LE,
    [6e400001-b5a3-f393-e0a9-e50e24dcca9e]. *)
Definition UART_UUID : UUID := 0x6e400001b5a3f393e0a9e50e24dcca9e%N.

Definition NoReply : DBusException :=
  mkDBusException "org.freedesktop.DBus.Error.NoReply" "Did not receive a reply".

Definition UnknownProperty : DBusException :=
  mkDBusException InvalidArgs "No such property".

(** A bus that answers no property read and accepts every request; nothing
    is ever notified, the clock stands still, no characteristic is found. *)
Definition E_down : environment :=
  mkEnvironment (fun _ _ _ => inl NoReply) (fun _ => None) (fun _ => [])
                (fun _ => 0%Q) (fun _ => inr []).

(** The RSSI is readable once ([-60] dBm) and unavailable afterwards. *)
Definition E_rssi_once : environment :=
  mkEnvironment
    (fun k _ _ => match k with O => inr (DInt (-60)) | _ => inl NoReply end)
    (fun _ => None) (fun _ => []) (fun _ => 0%Q) (fun _ => inr []).

Definition Connected_is (b : bool) : notification :=
  mkNotification _INTERFACE {[ "Connected" := DBoolean b ]} [].

(** No [UUIDs] and no [ServiceData] property on the device. *)
Definition E_no_property : environment :=
  mkEnvironment (fun _ _ _ => inl UnknownProperty) (fun _ => None) (fun _ => [])
                (fun _ => 0%Q) (fun _ => inr []).

(** A device that advertises the UART service and carries one byte of
    service data for the Battery Service. *)
Definition E_uart : environment :=
  mkEnvironment
    (fun _ _ name =>
       if String.eqb name "UUIDs"
       then inr (DStrArray ["6e400001-b5a3-f393-e0a9-e50e24dcca9e"])
       else if String.eqb name "ServiceData"
       then inr (DByteDict {[ "0000180f-0000-1000-8000-00805f9b34fb" := [Byte.x64] ]})
       else inl NoReply)
    (fun _ => None) (fun _ => []) (fun _ => 0%Q) (fun _ => inr []).

Definition BluezFailed : DBusException :=
  mkDBusException "org.bluez.Error.Failed" "Software caused connection abort".

(** The bus turns every [Connect] and [Disconnect] down. *)
Definition E_rejects : environment :=
  mkEnvironment (fun _ _ _ => inl NoReply) (fun _ => Some BluezFailed) (fun _ => [])
                (fun _ => 0%Q) (fun _ => inr []).

(** The request is accepted and the matching [Connected] change arrives
    during the wait that follows ([b]: connected or disconnected). *)
Definition E_notifies (b : bool) : environment :=
  mkEnvironment (fun _ _ _ => inl NoReply) (fun _ => None)
                (fun k => match k with 1 => [Connected_is b] | _ => [] end)
                (fun _ => 0%Q) (fun _ => inr []).

(** The TX and RX characteristics of the UART service. *)
Definition UART_TX : UUID := 0x6e400002b5a3f393e0a9e50e24dcca9e%N.
Definition UART_RX : UUID := 0x6e400003b5a3f393e0a9e50e24dcca9e%N.

(** The UART service appears at the third poll, its two characteristics
    are there from the start, and the clock advances by one second per
    reading. *)
Definition E_discovering : environment :=
  mkEnvironment
    (fun k _ _ =>
       if Nat.leb 2 k
       then inr (DStrArray ["6e400001-b5a3-f393-e0a9-e50e24dcca9e"])
       else inr (DStrArray []))
    (fun _ => None) (fun _ => [])
    (fun k => inject_Z (Z.of_nat k))
    (fun _ => inr [UART_TX; UART_RX]).

(** ** Reads in a row *)

Section Reads.

Variable E : environment.

(** The caller reads [rssi] [n] times in a row: the outcomes, in order,
    and the state left. *)
Fixpoint rssi_reads (n : nat) (s : state) : list (outcome dbus_value) * state :=
  match n with
  | O => ([], s)
  | S n' =>
      let (o, s1) := rssi E s in
      let (os, s2) := rssi_reads n' s1 in
      (o :: os, s2)
  end.

End Reads.

(** ** More sample worlds *)

(** The name is readable once and unavailable afterwards. *)
Definition E_name_once : environment :=
  mkEnvironment
    (fun k _ _ => match k with O => inr (DString "Bluefruit52") | _ => inl NoReply end)
    (fun _ => None) (fun _ => []) (fun _ => 0%Q) (fun _ => inr []).

(** The second advertised value is not a UUID. *)
Definition E_malformed : environment :=
  mkEnvironment
    (fun _ _ _ => inr (DStrArray ["6e400001-b5a3-f393-e0a9-e50e24dcca9e"; "battery"]))
    (fun _ => None) (fun _ => []) (fun _ => 0%Q) (fun _ => inr []).

(** The bus answers the first read (nothing advertised) and no read after
    it; the clock stands still. *)
Definition E_drops : environment :=
  mkEnvironment
    (fun k _ _ => match k with O => inr (DStrArray []) | _ => inl NoReply end)
    (fun _ => None) (fun _ => []) (fun _ => 0%Q) (fun _ => inr []).

(** Both [Connected] changes arrive during the wait of the first request
    and of the second. *)
Definition E_cycle : environment :=
  mkEnvironment (fun _ _ _ => inl NoReply) (fun _ => None)
                (fun k => match k with
                          | 1 => [Connected_is true]
                          | 3 => [Connected_is false]
                          | _ => []
                          end)
                (fun _ => 0%Q) (fun _ => inr []).

(** ** The notification handler *)

Lemma _prop_changed_returns iface changed_props invalidated_props s :
  fst (_prop_changed iface changed_props invalidated_props s) = Return tt.
Proof.
  unfold _prop_changed, bind, ret, Event_set.
  destruct (String.eqb iface _INTERFACE); simpl; [|reflexivity].
  destruct (changed_props !! "Connected") as [v|]; simpl; [|reflexivity].
  destruct (py_eq_int v 1), (py_eq_int v 0); reflexivity.
Qed.

(** The handler looks at the interface name and at the [Connected] entry,
    and at nothing else. *)
Lemma _prop_changed_cases iface changed_props invalidated_props s :
  snd (_prop_changed iface changed_props invalidated_props s) =
  if negb (String.eqb iface _INTERFACE) then s
  else match changed_props !! "Connected" with
       | None => s
       | Some v =>
           let s1 := if py_eq_int v 1 then set_flag connected_signal true s else s in
           if py_eq_int v 0 then set_flag disconnected_signal true s1 else s1
       end.
Proof.
  unfold _prop_changed, bind, ret, Event_set.
  destruct (String.eqb iface _INTERFACE); simpl; [|reflexivity].
  destruct (changed_props !! "Connected") as [v|]; simpl; [|reflexivity].
  destruct (py_eq_int v 1), (py_eq_int v 0); reflexivity.
Qed.

(** C9.  [_prop_changed] returns without raising.  For an interface other
    than [org.bluez.Device1] it leaves the state as it was.  For the device
    interface, a [Connected] entry equal to true sets the connected latch
    and leaves the disconnected latch alone; a [Connected] entry equal to
    false sets the disconnected latch and leaves the connected latch alone;
    with no [Connected] entry the state is as it was; and two change sets
    with the same [Connected] entry have the same effect, whatever else
    they hold. *)
Theorem prop_changed_sets_latches
    (iface : string) (changed_props : gmap string dbus_value)
    (invalidated_props : list string) (s : state) :
  let s' := snd (_prop_changed iface changed_props invalidated_props s) in
  fst (_prop_changed iface changed_props invalidated_props s) = Return tt ∧
  (iface ≠ _INTERFACE → s' = s) ∧
  (iface = _INTERFACE →
   changed_props !! "Connected" = Some (DBoolean true) →
   _connected s' = true ∧ _disconnected s' = _disconnected s) ∧
  (iface = _INTERFACE →
   changed_props !! "Connected" = Some (DBoolean false) →
   _disconnected s' = true ∧ _connected s' = _connected s) ∧
  (changed_props !! "Connected" = None → s' = s) ∧
  (∀ other invalidated' : _,
     other !! "Connected" = changed_props !! "Connected" →
     snd (_prop_changed iface other invalidated' s) = s').
Proof.
  cbv zeta. rewrite _prop_changed_cases.
  split; [apply _prop_changed_returns|].
  split.
  { intros Hne. apply String.eqb_neq in Hne. by rewrite Hne. }
  split.
  { intros Hi Hc. subst iface. rewrite Hc, String.eqb_refl. split; reflexivity. }
  split.
  { intros Hi Hc. subst iface. rewrite Hc, String.eqb_refl. split; reflexivity. }
  split.
  { intros Hc. rewrite Hc. by destruct (negb _). }
  intros other invalidated' Heq.
  by rewrite _prop_changed_cases, Heq.
Qed.

Lemma prop_changed_sets_latches_witness :
  (_connected (snd (_prop_changed _INTERFACE {[ "Connected" := DBoolean true ]} [] __init__)) = true
   ∧ _disconnected (snd (_prop_changed _INTERFACE {[ "Connected" := DBoolean true ]} [] __init__)) = false)
  ∧ (_disconnected (snd (_prop_changed _INTERFACE {[ "Connected" := DBoolean false ]} [] __init__)) = true
     ∧ _connected (snd (_prop_changed _INTERFACE {[ "Connected" := DBoolean false ]} [] __init__)) = false)
  ∧ snd (_prop_changed "org.bluez.Adapter1" {[ "Connected" := DBoolean true ]} [] __init__) = __init__
  ∧ snd (_prop_changed _INTERFACE {[ "RSSI" := DInt (-60) ]} [] __init__) = __init__.
Proof.
  split; [|split; [|split]].
  - destruct (prop_changed_sets_latches _INTERFACE
                {[ "Connected" := DBoolean true ]} [] __init__) as (_ & _ & H & _).
    apply H; reflexivity.
  - destruct (prop_changed_sets_latches _INTERFACE
                {[ "Connected" := DBoolean false ]} [] __init__) as (_ & _ & _ & H & _).
    apply H; reflexivity.
  - destruct (prop_changed_sets_latches "org.bluez.Adapter1"
                {[ "Connected" := DBoolean true ]} [] __init__) as (_ & H & _).
    apply H. apply String.eqb_neq. reflexivity.
  - destruct (prop_changed_sets_latches _INTERFACE
                {[ "RSSI" := DInt (-60) ]} [] __init__) as (_ & _ & _ & _ & H & _).
    apply H. reflexivity.
Defined.

(** ** Property accessors *)

Section Accessors.

Variable E : environment.

Lemma Get_ok iface name s v :
  props_Get E (n_Get s) iface name = inr v →
  Get E iface name s = (Return v, tick_Get (record (EvGet iface name) s)).
Proof. intros H. unfold Get. by rewrite H. Qed.

Lemma Get_fails iface name s ex :
  props_Get E (n_Get s) iface name = inl ex →
  Get E iface name s = (Raise (DBusExc ex), tick_Get (record (EvGet iface name) s)).
Proof. intros H. unfold Get. by rewrite H. Qed.

(** A successful read binds [backup_rssi] and returns it. *)
Lemma rssi_ok s v :
  props_Get E (n_Get s) _INTERFACE "RSSI" = inr v →
  rssi E s =
  (Return v, set_backup_rssi v (tick_Get (record (EvGet _INTERFACE "RSSI") s))).
Proof.
  intros H. unfold rssi, try_except, bind. by rewrite (Get_ok _ _ _ _ H).
Qed.

(** A failed read evaluates [self.backup_rssi] in the handler. *)
Lemma rssi_fails s ex :
  props_Get E (n_Get s) _INTERFACE "RSSI" = inl ex →
  rssi E s =
  (match backup_rssi s with
   | Some v => Return v
   | None => Raise (AttributeError "backup_rssi")
   end, tick_Get (record (EvGet _INTERFACE "RSSI") s)).
Proof.
  intros H. unfold rssi, try_except, bind. rewrite (Get_fails _ _ _ _ H).
  unfold getattr_backup_rssi. simpl. by destruct (backup_rssi s).
Qed.

(** C1.  A read of [rssi] that succeeds with [X] returns [X] and binds
    [backup_rssi] to it; a read that fails while [backup_rssi] is bound to
    [X] returns [X] and keeps it: so a failing read after a successful
    read of [X] returns [X].  On a handle that has no [backup_rssi]
    attribute yet (as [__init__] leaves it), a failing read does not
    return an absent value: the handler's own [self.backup_rssi] raises
    [AttributeError], which reaches the caller, and the attribute stays
    unbound. *)
Theorem rssi_backup_fallback (s : state) :
  (∀ X, props_Get E (n_Get s) _INTERFACE "RSSI" = inr X →
        fst (rssi E s) = Return X ∧ backup_rssi (snd (rssi E s)) = Some X) ∧
  (∀ X ex, backup_rssi s = Some X →
           props_Get E (n_Get s) _INTERFACE "RSSI" = inl ex →
           fst (rssi E s) = Return X ∧ backup_rssi (snd (rssi E s)) = Some X) ∧
  (∀ X ex, props_Get E (n_Get s) _INTERFACE "RSSI" = inr X →
           props_Get E (S (n_Get s)) _INTERFACE "RSSI" = inl ex →
           fst (rssi E (snd (rssi E s))) = Return X) ∧
  (∀ ex, backup_rssi s = None →
         props_Get E (n_Get s) _INTERFACE "RSSI" = inl ex →
         fst (rssi E s) = Raise (AttributeError "backup_rssi") ∧
         backup_rssi (snd (rssi E s)) = None).
Proof.
  split; [|split; [|split]].
  - intros X Hok. by rewrite (rssi_ok _ _ Hok).
  - intros X ex Hbackup Hfail. rewrite (rssi_fails _ _ Hfail). simpl.
    by rewrite Hbackup.
  - intros X ex Hok Hfail. rewrite (rssi_ok _ _ Hok). simpl.
    by rewrite (rssi_fails _ ex).
  - intros ex Hnone Hfail. rewrite (rssi_fails _ _ Hfail). simpl.
    by rewrite Hnone.
Qed.

Lemma _prop_get_loop_ok name i rest last s v :
  props_Get E (n_Get s) _INTERFACE name = inr v →
  _prop_get_loop E name (i :: rest) last s =
  (Return v, tick_Get (record (EvGet _INTERFACE name) s)).
Proof.
  intros H. simpl. unfold bind, try_except_DBus, try_except.
  by rewrite (Get_ok _ _ _ _ H).
Qed.

Lemma _prop_get_loop_fails name i rest last s e :
  props_Get E (n_Get s) _INTERFACE name = inl e →
  _prop_get_loop E name (i :: rest) last s =
  _prop_get_loop E name rest (Some e)
    (record (EvSleep DBUS_METHOD_ACCESS_TIMEOUT)
       (record (EvLog (LogPropGetFail name i e))
          (tick_Get (record (EvGet _INTERFACE name) s)))).
Proof.
  intros H. simpl. unfold bind, try_except_DBus, try_except.
  by rewrite (Get_fails _ _ _ _ H).
Qed.

(** C2, as the code has it.  [id], [is_connected] and [_adapter] are
    [_prop_get] of [Address], [Connected] and [Adapter].  [_prop_get]
    returns the value of the first of at most three reads that succeeds,
    and reads no further.  Every failed read is followed by a log line and
    a sleep of one second, the third one too: when all three reads fail
    there are three reads and three sleeps, the last sleep after the last
    read, and then the error of the third read is raised. *)
Theorem prop_get_retries (name : string) (s : state) :
  let reply k := props_Get E (n_Get s + k) _INTERFACE name in
  let out := _prop_get E name s in
  (id E = _prop_get E "Address" ∧ is_connected E = _prop_get E "Connected"
   ∧ _adapter E = _prop_get E "Adapter") ∧
  (∀ v, reply 0 = inr v →
     fst out = Return v ∧
     trace (snd out) = (trace s ++ [EvGet _INTERFACE name])%list) ∧
  (∀ e0 v, reply 0 = inl e0 → reply 1 = inr v →
     fst out = Return v ∧
     trace (snd out) =
       (trace s ++ failed_attempt name 0 e0 ++ [EvGet _INTERFACE name])%list) ∧
  (∀ e0 e1 v, reply 0 = inl e0 → reply 1 = inl e1 → reply 2 = inr v →
     fst out = Return v ∧
     trace (snd out) =
       (trace s ++ failed_attempt name 0 e0 ++ failed_attempt name 1 e1
          ++ [EvGet _INTERFACE name])%list) ∧
  (∀ e0 e1 e2, reply 0 = inl e0 → reply 1 = inl e1 → reply 2 = inl e2 →
     fst out = Raise (DBusExc e2) ∧
     trace (snd out) =
       (trace s ++ failed_attempt name 0 e0 ++ failed_attempt name 1 e1
          ++ failed_attempt name 2 e2)%list).
Proof.
  cbv beta zeta. replace (n_Get s + 0) with (n_Get s) by lia.
  replace (n_Get s + 1) with (S (n_Get s)) by lia.
  replace (n_Get s + 2) with (S (S (n_Get s))) by lia.
  unfold _prop_get. cbn [seq DBUS_METHOD_ACCESS_TENTATIVE].
  split; [done|]. split; [|split; [|split]].
  - intros v H0. rewrite (_prop_get_loop_ok _ _ _ _ _ _ H0). done.
  - intros e0 v H0 H1. rewrite (_prop_get_loop_fails _ _ _ _ _ _ H0).
    rewrite (_prop_get_loop_ok _ _ _ _ _ v); [|exact H1].
    split; [done|]. simpl. by rewrite <- !app_assoc.
  - intros e0 e1 v H0 H1 H2. rewrite (_prop_get_loop_fails _ _ _ _ _ _ H0).
    rewrite (_prop_get_loop_fails _ _ _ _ _ e1); [|exact H1].
    rewrite (_prop_get_loop_ok _ _ _ _ _ v); [|exact H2].
    split; [done|]. simpl. by rewrite <- !app_assoc.
  - intros e0 e1 e2 H0 H1 H2. rewrite (_prop_get_loop_fails _ _ _ _ _ _ H0).
    rewrite (_prop_get_loop_fails _ _ _ _ _ e1); [|exact H1].
    rewrite (_prop_get_loop_fails _ _ _ _ _ e2); [|exact H2].
    split; [done|]. simpl. by rewrite <- !app_assoc.
Qed.

(** [bytes([v])] for each [v], joined: the bytes themselves. *)
Lemma concat_bytes_singletons (data : list Byte.byte) :
  concat_bytes (map (fun v => [v]) data) = data.
Proof.
  unfold concat_bytes.
  assert (H : ∀ acc : list Byte.byte,
             fold_left (fun bytestring b => (bytestring ++ b)%list)
                       (map (fun v => [v]) data) acc = (acc ++ data)%list).
  { induction data as [|v data IH]; intros acc; simpl.
    - by rewrite app_nil_r.
    - rewrite IH. by rewrite <- app_assoc. }
  apply (H []).
Qed.

Section UUIDs.

Variable uuid_UUID : string → option UUID.
Variable uuid_str : UUID → string.

Lemma parse_UUID_ok (x : string) (u : UUID) (s : state) :
  uuid_UUID x = Some u → parse_UUID uuid_UUID x s = (Return u, s).
Proof. intros H. unfold parse_UUID. by rewrite H. Qed.

Lemma list_comp_parse (xs : list string) (us : list UUID) (s : state) :
  Forall2 (fun x u => uuid_UUID x = Some u) xs us →
  list_comp (parse_UUID uuid_UUID) xs s = (Return us, s).
Proof.
  induction 1 as [|x u xs us Hx _ IH]; simpl; [reflexivity|].
  unfold bind. by rewrite (parse_UUID_ok _ _ _ Hx), IH.
Qed.

(** C4.  When the read of [UUIDs] fails with the error named
    [org.freedesktop.DBus.Error.InvalidArgs], [advertised] returns the
    empty list.  When it fails with an error of any other name, that very
    error is raised.  When it succeeds with an array of strings each of
    which is a well-formed UUID, the list of the parsed UUIDs is returned,
    in order. *)
Theorem advertised_policy (s : state) :
  (∀ ex, props_Get E (n_Get s) _INTERFACE "UUIDs" = inl ex →
         get_dbus_name ex = InvalidArgs →
         fst (advertised uuid_UUID E s) = Return []) ∧
  (∀ ex, props_Get E (n_Get s) _INTERFACE "UUIDs" = inl ex →
         get_dbus_name ex ≠ InvalidArgs →
         fst (advertised uuid_UUID E s) = Raise (DBusExc ex)) ∧
  (∀ xs us, props_Get E (n_Get s) _INTERFACE "UUIDs" = inr (DStrArray xs) →
            Forall2 (fun x u => uuid_UUID x = Some u) xs us →
            fst (advertised uuid_UUID E s) = Return us).
Proof.
  unfold advertised, bind, try_except_DBus, try_except.
  split; [|split].
  - intros ex H Hname. rewrite (Get_fails _ _ _ _ H), Hname. reflexivity.
  - intros ex H Hname. rewrite (Get_fails _ _ _ _ H).
    apply String.eqb_neq in Hname. by rewrite Hname.
  - intros xs us H Hparse. rewrite (Get_ok _ _ _ _ H). simpl.
    by rewrite (list_comp_parse _ _ _ Hparse).
Qed.

(** C3, as the code has it.  When the read of [ServiceData] succeeds with
    a dictionary, [advertised_data] looks up [str(service_uuid)] in it.
    If the key is missing the lookup raises [KeyError], which is not a
    [DBusException], so it reaches the caller: no absent value is returned.
    If the key is there, the bytes stored under it are returned as one byte
    string. *)
Theorem advertised_data_lookup (service_uuid : UUID) (s : state)
    (d : gmap string (list Byte.byte)) :
  props_Get E (n_Get s) _INTERFACE "ServiceData" = inr (DByteDict d) →
  (d !! uuid_str service_uuid = None →
   fst (advertised_data uuid_str E service_uuid s)
   = Raise (KeyError (uuid_str service_uuid))) ∧
  (∀ data, d !! uuid_str service_uuid = Some data →
   fst (advertised_data uuid_str E service_uuid s) = Return (Some data)).
Proof.
  intros H. unfold advertised_data, bind, try_except_DBus, try_except.
  rewrite (Get_ok _ _ _ _ H). simpl. split.
  - intros Hd. by rewrite Hd.
  - intros data Hd. rewrite Hd. simpl. by rewrite concat_bytes_singletons.
Qed.

End UUIDs.

End Accessors.

Lemma rssi_backup_fallback_witness :
  (fst (rssi E_rssi_once __init__) = Return (DInt (-60))
   ∧ fst (rssi E_rssi_once (snd (rssi E_rssi_once __init__))) = Return (DInt (-60)))
  ∧ (fst (rssi E_down __init__) = Raise (AttributeError "backup_rssi")
     ∧ backup_rssi (snd (rssi E_down __init__)) = None).
Proof.
  destruct (rssi_backup_fallback E_rssi_once __init__) as (Hok & _ & Hthen & _).
  destruct (rssi_backup_fallback E_down __init__) as (_ & _ & _ & Hnone).
  split; [split|].
  - apply (Hok (DInt (-60))). reflexivity.
  - apply (Hthen (DInt (-60)) NoReply); reflexivity.
  - apply (Hnone NoReply); reflexivity.
Defined.

(** C2, as the claim has it, fails: with a bus that answers no read, [id]
    makes three reads and raises the error of the third, but it has slept
    three times, not twice, and the last thing it did before raising was
    to sleep. *)
Lemma prop_get_sleeps_after_third_read :
  fst (id E_down __init__) = Raise (DBusExc NoReply)
  ∧ length (List.filter is_read (trace (snd (id E_down __init__)))) = 3
  ∧ length (List.filter is_sleep (trace (snd (id E_down __init__)))) = 3
  ∧ last (trace (snd (id E_down __init__))) = Some (EvSleep 1).
Proof. repeat split; reflexivity. Qed.

Lemma prop_get_retries_witness :
  fst (_prop_get E_down "Connected" __init__) = Raise (DBusExc NoReply)
  ∧ trace (snd (_prop_get E_down "Connected" __init__))
    = (failed_attempt "Connected" 0 NoReply ++ failed_attempt "Connected" 1 NoReply
         ++ failed_attempt "Connected" 2 NoReply)%list.
Proof.
  destruct (prop_get_retries E_down "Connected" __init__) as (_ & _ & _ & _ & H).
  apply (H NoReply NoReply NoReply); reflexivity.
Defined.

Lemma advertised_policy_witness :
  fst (advertised canonical_parse E_no_property __init__) = Return []
  ∧ fst (advertised canonical_parse E_down __init__) = Raise (DBusExc NoReply)
  ∧ fst (advertised canonical_parse E_uart __init__) = Return [UART_UUID].
Proof.
  split; [|split].
  - apply (proj1 (advertised_policy E_no_property canonical_parse __init__) UnknownProperty);
      reflexivity.
  - apply (proj1 (proj2 (advertised_policy E_down canonical_parse __init__)) NoReply).
    + reflexivity.
    + apply String.eqb_neq. reflexivity.
  - apply (proj2 (proj2 (advertised_policy E_uart canonical_parse __init__))
             ["6e400001-b5a3-f393-e0a9-e50e24dcca9e"]).
    + reflexivity.
    + repeat constructor.
Defined.

(** C3, as the claim has it, fails: the device carries service data for
    the Battery Service only, and asking for the data of the UART service
    raises [KeyError] instead of returning an absent value. *)
Lemma advertised_data_missing_key_raises :
  fst (advertised_data canonical_str E_uart UART_UUID __init__)
  = Raise (KeyError "6e400001-b5a3-f393-e0a9-e50e24dcca9e").
Proof. vm_compute. reflexivity. Qed.

Lemma advertised_data_lookup_witness :
  fst (advertised_data canonical_str E_uart UART_UUID __init__)
  = Raise (KeyError (canonical_str UART_UUID))
  ∧ fst (advertised_data canonical_str E_uart BATTERY_UUID __init__)
    = Return (Some [Byte.x64]).
Proof.
  split.
  - destruct (advertised_data_lookup E_uart canonical_str UART_UUID __init__
                {[ "0000180f-0000-1000-8000-00805f9b34fb" := [Byte.x64] ]}
                eq_refl) as [H _].
    apply H. vm_compute. reflexivity.
  - destruct (advertised_data_lookup E_uart canonical_str BATTERY_UUID __init__
                {[ "0000180f-0000-1000-8000-00805f9b34fb" := [Byte.x64] ]}
                eq_refl) as [_ H].
    apply H. vm_compute. reflexivity.
Defined.

(** ** Connecting and disconnecting *)

Section Connection.

Variable E : environment.

Lemma _prop_changed_flag l n s :
  flag l (snd (_prop_changed (n_iface n) (n_changed_props n) (n_invalidated_props n) s))
  = flag l s || fires l n.
Proof.
  rewrite _prop_changed_cases. unfold fires.
  destruct (String.eqb (n_iface n) _INTERFACE); simpl.
  2: by rewrite orb_false_r.
  destruct (n_changed_props n !! "Connected") as [v|]; simpl.
  2: by rewrite orb_false_r.
  destruct v as [[]|z| | |], l; simpl; try (by rewrite orb_false_r);
    try (by rewrite orb_true_r).
  all: destruct (Z.eqb z 1), (Z.eqb z 0); simpl;
    auto using orb_false_r, orb_true_r.
Qed.

(** The handler touches the two latches and nothing else. *)
Lemma _prop_changed_rest n s :
  let s' := snd (_prop_changed (n_iface n) (n_changed_props n) (n_invalidated_props n) s) in
  backup_rssi s' = backup_rssi s ∧ n_Get s' = n_Get s ∧ n_call s' = n_call s
  ∧ n_blocked s' = n_blocked s ∧ n_time s' = n_time s
  ∧ n_objects s' = n_objects s ∧ trace s' = trace s.
Proof.
  cbv zeta. rewrite _prop_changed_cases.
  destruct (negb _); [done|].
  destruct (n_changed_props n !! "Connected") as [v|]; [|done].
  cbv zeta. by destruct (py_eq_int v 1), (py_eq_int v 0).
Qed.

Lemma deliver_flag l ns s :
  flag l (deliver ns s) = flag l s || existsb (fires l) ns.
Proof.
  revert s. induction ns as [|n ns IH]; intros s; simpl.
  - by rewrite orb_false_r.
  - by rewrite IH, _prop_changed_flag, orb_assoc.
Qed.

Lemma deliver_rest ns s :
  backup_rssi (deliver ns s) = backup_rssi s ∧ n_Get (deliver ns s) = n_Get s
  ∧ n_call (deliver ns s) = n_call s ∧ n_blocked (deliver ns s) = n_blocked s
  ∧ n_time (deliver ns s) = n_time s ∧ n_objects (deliver ns s) = n_objects s
  ∧ trace (deliver ns s) = trace s.
Proof.
  revert s. induction ns as [|n ns IH]; intros s; simpl; [done|].
  destruct (IH (snd (_prop_changed (n_iface n) (n_changed_props n)
                                    (n_invalidated_props n) s)))
    as (-> & -> & -> & -> & -> & -> & ->).
  apply (_prop_changed_rest n s).
Qed.

Lemma blocked_flag l s :
  flag l (blocked E s) = flag l s || existsb (fires l) (dispatched E (n_blocked s)).
Proof.
  rewrite <- deliver_flag. unfold blocked. by destruct l.
Qed.

Lemma blocked_rest s :
  n_call (blocked E s) = n_call s ∧ n_blocked (blocked E s) = S (n_blocked s)
  ∧ trace (blocked E s) = trace s.
Proof.
  unfold blocked. simpl.
  destruct (deliver_rest (dispatched E (n_blocked s)) s) as (_ & _ & -> & -> & _ & _ & ->).
  done.
Qed.

Lemma trace_blocked s : trace (blocked E s) = trace s.
Proof. apply blocked_rest. Qed.

Lemma trace_record ev s : trace (record ev s) = (trace s ++ [ev])%list.
Proof. reflexivity. Qed.

Lemma trace_tick_call s : trace (tick_call s) = trace s.
Proof. reflexivity. Qed.

Lemma trace_set_flag l b s : trace (set_flag l b s) = trace s.
Proof. by destruct l. Qed.

Create Rewrite HintDb trace_of.
Hint Rewrite trace_blocked trace_record trace_tick_call trace_set_flag : trace_of.

(** [connect], step by step. *)
Lemma connect_unfold timeout_sec s :
  connect E timeout_sec s =
  let s0 := record (EvClear connected_signal) (set_flag connected_signal false s) in
  let s1 := tick_call (blocked E (record EvConnect s0)) in
  match device_reply E (n_call s) with
  | Some ex => (Raise (DBusExc ex), s1)
  | None =>
      let s2 := blocked E (record (EvWait connected_signal timeout_sec) s1) in
      (if _connected s2 then Return tt else Raise ConnectTimeout, s2)
  end.
Proof.
  unfold connect, bind, Event_clear, Connect, device_call, Event_wait. simpl.
  destruct (device_reply E (n_call s)); [reflexivity|]. simpl.
  match goal with |- context [if negb ?b then _ else _] => by destruct b end.
Qed.

(** [disconnect], step by step. *)
Lemma disconnect_unfold timeout_sec s :
  disconnect E timeout_sec s =
  let s0 := record (EvClear disconnected_signal)
                   (set_flag disconnected_signal false s) in
  let s1 := tick_call (blocked E (record EvDisconnect s0)) in
  match device_reply E (n_call s) with
  | Some ex => (Return tt, record (EvLog (LogDisconnectException ex)) s1)
  | None =>
      let s2 := blocked E (record (EvWait disconnected_signal timeout_sec)
                                  (record (EvLog LogDisconnected) s1)) in
      (if _disconnected s2 then Return tt else Raise DisconnectTimeout, s2)
  end.
Proof.
  unfold disconnect, bind, try_except_DBus, try_except, Event_clear, Disconnect,
    device_call, Event_wait, logger, ret. simpl.
  destruct (device_reply E (n_call s)); [reflexivity|]. simpl.
  match goal with |- context [if negb ?b then _ else _] => by destruct b end.
Qed.

(** The flag of latch [l] after a request and the wait that follows it,
    starting from the state [s0] in which the calling thread asks. *)
Lemma flag_after_request_and_wait l ev1 evs ev2 s0 :
  flag l (blocked E (record ev2 (fold_right record
            (tick_call (blocked E (record ev1 s0))) evs)))
  = flag l s0
    || existsb (fires l) (dispatched E (n_blocked s0) ++ dispatched E (S (n_blocked s0))).
Proof.
  rewrite blocked_flag, existsb_app, orb_assoc. f_equal.
  - assert (Hf : ∀ t, flag l (fold_right record t evs) = flag l t).
    { intros t. induction evs as [|e es IH]; [done|]. simpl. rewrite <- IH. by destruct l. }
    transitivity (flag l (blocked E (record ev1 s0))).
    { transitivity (flag l (fold_right record (tick_call (blocked E (record ev1 s0))) evs));
        [by destruct l|]. rewrite Hf. by destruct l. }
    rewrite blocked_flag. by destruct l.
  - assert (Hn : ∀ t, n_blocked (fold_right record t evs) = n_blocked t).
    { intros t. induction evs as [|e es IH]; [done|]. simpl. by rewrite <- IH. }
    do 2 f_equal. simpl. rewrite Hn.
    transitivity (n_blocked (blocked E (record ev1 s0))); [reflexivity|].
    by destruct (blocked_rest (record ev1 s0)) as (_ & -> & _).
Qed.

(** C5, as the code has it.  [connect] clears the connected latch and
    only then sends the [Connect] request.  If the bus turns the request
    down, the bus error is raised at once and nothing is waited for.  If
    the request is accepted, [connect] waits on the connected latch: it
    returns normally when a notification delivered since the clear (during
    the request or during the wait) has set the latch, and raises the
    timeout [RuntimeError] when none has; what the latch was before the
    call does not matter. *)
Theorem connect_clear_request_wait (timeout_sec : Q) (s : state) :
  let out := connect E timeout_sec s in
  let notified :=
    existsb (fires connected_signal)
            (dispatched E (n_blocked s) ++ dispatched E (S (n_blocked s))) in
  (∀ ex, device_reply E (n_call s) = Some ex →
     fst out = Raise (DBusExc ex) ∧
     trace (snd out) = (trace s ++ [EvClear connected_signal; EvConnect])%list) ∧
  (device_reply E (n_call s) = None →
     trace (snd out) =
       (trace s ++ [EvClear connected_signal; EvConnect;
                    EvWait connected_signal timeout_sec])%list ∧
     _connected (snd out) = notified ∧
     fst out = if notified then Return tt else Raise ConnectTimeout).
Proof.
  cbv zeta. rewrite connect_unfold. cbv zeta. split.
  - intros ex ->. cbn [fst snd]. split; [reflexivity|].
    autorewrite with trace_of. by rewrite <- !app_assoc.
  - intros ->.
    pose proof (flag_after_request_and_wait connected_signal EvConnect []
      (EvWait connected_signal timeout_sec)
      (record (EvClear connected_signal) (set_flag connected_signal false s))) as Hflag.
    cbn [fold_right] in Hflag. cbn [fst snd].
    change (_connected ?x) with (flag connected_signal x).
    rewrite Hflag. split; [|done].
    autorewrite with trace_of. by rewrite <- !app_assoc.
Qed.

(** C6.  [disconnect] clears the disconnected latch and sends the
    [Disconnect] request.  If the bus turns the request down, the error is
    logged and [disconnect] returns normally, without waiting.  Otherwise
    it logs, waits on the disconnected latch, returns normally when a
    notification delivered since the clear has set the latch, and raises
    the timeout [RuntimeError] when none has. *)
Theorem disconnect_rejected_or_waits (timeout_sec : Q) (s : state) :
  let out := disconnect E timeout_sec s in
  let notified :=
    existsb (fires disconnected_signal)
            (dispatched E (n_blocked s) ++ dispatched E (S (n_blocked s))) in
  (∀ ex, device_reply E (n_call s) = Some ex →
     fst out = Return tt ∧
     trace (snd out) =
       (trace s ++ [EvClear disconnected_signal; EvDisconnect;
                    EvLog (LogDisconnectException ex)])%list) ∧
  (device_reply E (n_call s) = None →
     trace (snd out) =
       (trace s ++ [EvClear disconnected_signal; EvDisconnect;
                    EvLog LogDisconnected;
                    EvWait disconnected_signal timeout_sec])%list ∧
     _disconnected (snd out) = notified ∧
     fst out = if notified then Return tt else Raise DisconnectTimeout).
Proof.
  cbv zeta. rewrite disconnect_unfold. cbv zeta. split.
  - intros ex ->. cbn [fst snd]. split; [reflexivity|].
    autorewrite with trace_of. by rewrite <- !app_assoc.
  - intros ->.
    pose proof (flag_after_request_and_wait disconnected_signal EvDisconnect
      [EvLog LogDisconnected] (EvWait disconnected_signal timeout_sec)
      (record (EvClear disconnected_signal) (set_flag disconnected_signal false s)))
      as Hflag.
    cbn [fold_right] in Hflag. cbn [fst snd].
    change (_disconnected ?x) with (flag disconnected_signal x).
    rewrite Hflag. split; [|done].
    autorewrite with trace_of. by rewrite <- !app_assoc.
Qed.

(** What the calling thread does during [connect]. *)
Lemma connect_trace timeout_sec s :
  trace (snd (connect E timeout_sec s)) =
  (trace s ++ EvClear connected_signal :: EvConnect ::
     match device_reply E (n_call s) with
     | Some _ => []
     | None => [EvWait connected_signal timeout_sec]
     end)%list.
Proof.
  rewrite connect_unfold. cbv zeta.
  destruct (device_reply E (n_call s)); cbn [fst snd];
    autorewrite with trace_of; by rewrite <- !app_assoc.
Qed.

(** What the calling thread does during [disconnect]. *)
Lemma disconnect_trace timeout_sec s :
  trace (snd (disconnect E timeout_sec s)) =
  (trace s ++ EvClear disconnected_signal :: EvDisconnect ::
     match device_reply E (n_call s) with
     | Some ex => [EvLog (LogDisconnectException ex)]
     | None => [EvLog LogDisconnected; EvWait disconnected_signal timeout_sec]
     end)%list.
Proof.
  rewrite disconnect_unfold. cbv zeta.
  destruct (device_reply E (n_call s)); cbn [fst snd];
    autorewrite with trace_of; by rewrite <- !app_assoc.
Qed.

(** The flag of latch [l] after a request that was turned down. *)
Lemma flag_after_request l ev1 evs s0 :
  flag l (fold_right record (tick_call (blocked E (record ev1 s0))) evs)
  = flag l s0 || existsb (fires l) (dispatched E (n_blocked s0)).
Proof.
  assert (Hf : ∀ t, flag l (fold_right record t evs) = flag l t).
  { intros t. induction evs as [|e es IH]; [done|]. simpl. rewrite <- IH. by destruct l. }
  rewrite Hf. transitivity (flag l (blocked E (record ev1 s0))); [by destruct l|].
  rewrite blocked_flag. by destruct l.
Qed.

(** C10.  After [connect] the disconnected latch is what it was before,
    unless one of the notifications delivered during the call made the
    handler set it; the calling thread itself clears and waits on the
    connected latch only.  Symmetrically, after [disconnect] the connected
    latch is what it was before, unless the handler set it during the
    call, and the calling thread clears and waits on the disconnected
    latch only. *)
Theorem other_latch_untouched (timeout_sec : Q) (s : state) :
  let delivered :=
    (dispatched E (n_blocked s) ++
     match device_reply E (n_call s) with
     | Some _ => []
     | None => dispatched E (S (n_blocked s))
     end)%list in
  (_disconnected (snd (connect E timeout_sec s))
   = _disconnected s || existsb (fires disconnected_signal) delivered
   ∧ ∃ evs, trace (snd (connect E timeout_sec s)) = (trace s ++ evs)%list
            ∧ forallb (fun ev => negb (touches disconnected_signal ev)) evs = true
            ∧ existsb (touches connected_signal) evs = true)
  ∧
  (_connected (snd (disconnect E timeout_sec s))
   = _connected s || existsb (fires connected_signal) delivered
   ∧ ∃ evs, trace (snd (disconnect E timeout_sec s)) = (trace s ++ evs)%list
            ∧ forallb (fun ev => negb (touches connected_signal ev)) evs = true
            ∧ existsb (touches disconnected_signal) evs = true).
Proof.
  cbv zeta. split; (split; [|eexists; split; [apply connect_trace || apply disconnect_trace|]]).
  - rewrite connect_unfold. cbv zeta.
    destruct (device_reply E (n_call s)); cbn [fst snd].
    + rewrite app_nil_r.
      apply (flag_after_request disconnected_signal EvConnect []
               (record (EvClear connected_signal) (set_flag connected_signal false s))).
    + apply (flag_after_request_and_wait disconnected_signal EvConnect []
               (EvWait connected_signal timeout_sec)
               (record (EvClear connected_signal) (set_flag connected_signal false s))).
  - by destruct (device_reply E (n_call s)).
  - rewrite disconnect_unfold. cbv zeta.
    destruct (device_reply E (n_call s)) as [ex|]; cbn [fst snd].
    + rewrite app_nil_r.
      apply (flag_after_request connected_signal EvDisconnect
               [EvLog (LogDisconnectException ex)]
               (record (EvClear disconnected_signal)
                       (set_flag disconnected_signal false s))).
    + apply (flag_after_request_and_wait connected_signal EvDisconnect
               [EvLog LogDisconnected] (EvWait disconnected_signal timeout_sec)
               (record (EvClear disconnected_signal)
                       (set_flag disconnected_signal false s))).
  - by destruct (device_reply E (n_call s)).
Qed.

End Connection.

(** ** Discovery *)

Section Discovery.

Variable uuid_UUID : string → option UUID.
Variable E : environment.

(** A list comprehension over [parse_UUID] leaves the state alone, and
    its outcome does not depend on the state. *)
Lemma list_comp_parse_pure (xs : list string) (s s0 : state) :
  list_comp (parse_UUID uuid_UUID) xs s
  = (fst (list_comp (parse_UUID uuid_UUID) xs s0), s).
Proof.
  induction xs as [|x xs IH]; simpl; [reflexivity|].
  unfold bind, parse_UUID at 1 3.
  destruct (uuid_UUID x); simpl; [|reflexivity].
  rewrite IH.
  by destruct (list_comp (parse_UUID uuid_UUID) xs s0) as [[ys|e] s'].
Qed.

(** [advertised] makes one read; its outcome depends on the answer to
    that read only. *)
Lemma advertised_seen (s : state) :
  advertised uuid_UUID E s
  = (seen_services uuid_UUID E (n_Get s), tick_Get (record (EvGet _INTERFACE "UUIDs") s)).
Proof.
  unfold seen_services, advertised, bind, try_except_DBus, try_except, Get.
  cbn [n_Get].
  destruct (props_Get E (n_Get s) _INTERFACE "UUIDs") as [ex|v]; cbn [fst snd].
  - destruct (negb _); cbn; reflexivity.
  - destruct (py_iter_str v) as [e|xs]; cbn [lift]; [reflexivity|].
    unfold ret. rewrite (list_comp_parse_pure xs _ (tick_Get
      (record (EvGet _INTERFACE "UUIDs") (mkState false false None (n_Get s) 0 0 0 0 [])))).
    by destruct (list_comp _ _ _) as [[ys|e] s'].
Qed.

Section Loop.

Variables expected_services expected_chars : gset UUID.
Variables start timeout_sec : Q.

Lemma after_queries_counters t :
  n_Get (after_queries t) = S (n_Get t)
  ∧ n_objects (after_queries t) = S (n_objects t)
  ∧ n_time (after_queries t) = n_time t
  ∧ trace (after_queries t) = (trace t ++ poll_queries)%list.
Proof.
  repeat split. unfold after_queries, poll_queries. simpl. by rewrite <- app_assoc.
Qed.

Lemma after_idle_poll_counters t :
  n_Get (after_idle_poll t) = S (n_Get t)
  ∧ n_objects (after_idle_poll t) = S (n_objects t)
  ∧ n_time (after_idle_poll t) = S (n_time t)
  ∧ trace (after_idle_poll t) = (trace t ++ idle_poll)%list.
Proof.
  repeat split. unfold after_idle_poll, after_queries, idle_poll, poll_queries.
  simpl. by rewrite <- !app_assoc.
Qed.

Lemma idle_polls_counters k t :
  n_Get (Nat.iter k after_idle_poll t) = n_Get t + k
  ∧ n_objects (Nat.iter k after_idle_poll t) = n_objects t + k
  ∧ n_time (Nat.iter k after_idle_poll t) = n_time t + k
  ∧ trace (Nat.iter k after_idle_poll t)
    = (trace t ++ concat (replicate k idle_poll))%list.
Proof.
  induction k as [|k (IHg & IHo & IHt & IHtr)].
  - simpl. by rewrite !Nat.add_0_r, app_nil_r.
  - rewrite Nat.iter_succ.
    destruct (after_idle_poll_counters (Nat.iter k after_idle_poll t))
      as (-> & -> & -> & ->).
    rewrite IHg, IHo, IHt, IHtr. repeat split; try lia.
    rewrite <- app_assoc. f_equal.
    change (S k) with (1 + k). rewrite Nat.add_comm, replicate_add, concat_app.
    reflexivity.
Qed.

(** A poll whose comparison succeeds. *)
Lemma discover_poll_found t :
  poll_result uuid_UUID E expected_services expected_chars (n_Get t) (n_objects t)
  = Some true →
  discover_poll uuid_UUID E expected_services expected_chars start timeout_sec t
  = (Return (Some true), after_queries t).
Proof.
  unfold poll_result, discover_poll, bind. rewrite advertised_seen.
  destruct (seen_services uuid_UUID E (n_Get t)) as [adv|e]; [|done].
  unfold get_char_uuids. cbn [n_objects tick_Get record].
  destruct (char_uuids E (n_objects t)) as [e|chars]; [done|].
  intros [= ->]. reflexivity.
Qed.

(** A poll whose comparison fails: the clock decides. *)
Lemma discover_poll_not_found t :
  poll_result uuid_UUID E expected_services expected_chars (n_Get t) (n_objects t)
  = Some false →
  discover_poll uuid_UUID E expected_services expected_chars start timeout_sec t
  = if Qle_bool timeout_sec (clock E (n_time t) - start)
    then (Return (Some false), tick_time (record EvTime (after_queries t)))
    else (Return None, after_idle_poll t).
Proof.
  unfold poll_result, discover_poll, bind. rewrite advertised_seen.
  destruct (seen_services uuid_UUID E (n_Get t)) as [adv|e]; [|done].
  unfold get_char_uuids. cbn [n_objects tick_Get record].
  destruct (char_uuids E (n_objects t)) as [e|chars]; [done|].
  intros [= ->]. unfold time_time. cbn [n_time tick_objects tick_Get record].
  by destruct (Qle_bool _ _).
Qed.

(** A poll one of whose queries raises. *)
Lemma discover_poll_raises t :
  poll_result uuid_UUID E expected_services expected_chars (n_Get t) (n_objects t)
  = None →
  ∃ e, fst (discover_poll uuid_UUID E expected_services expected_chars
              start timeout_sec t) = Raise e
       ∧ (seen_services uuid_UUID E (n_Get t) = Raise e
          ∨ char_uuids E (n_objects t) = inl e).
Proof.
  unfold poll_result, discover_poll, bind. rewrite advertised_seen.
  destruct (seen_services uuid_UUID E (n_Get t)) as [adv|e]; [|by eauto].
  unfold get_char_uuids. cbn [n_objects tick_Get record].
  destruct (char_uuids E (n_objects t)) as [e|chars]; [by eauto|done].
Qed.

Lemma Qle_bool_false (x y : Q) : (y < x)%Q → Qle_bool x y = false.
Proof.
  intros H. destruct (Qle_bool x y) eqn:Hle; [|reflexivity].
  apply Qle_bool_iff in Hle. by apply Qle_not_lt in Hle.
Qed.

(** [k] polls in a row that find too little while time is left: the
    loop is where it started, [k] idle polls later. *)
Lemma discover_loop_idle k : ∀ fuel t,
  (∀ i, i < k →
     poll_result uuid_UUID E expected_services expected_chars
                 (n_Get t + i) (n_objects t + i) = Some false
     ∧ (clock E (n_time t + i) - start < timeout_sec)%Q) →
  discover_loop uuid_UUID E (k + fuel) expected_services expected_chars
                start timeout_sec t
  = discover_loop uuid_UUID E fuel expected_services expected_chars
                  start timeout_sec (Nat.iter k after_idle_poll t).
Proof.
  induction k as [|k IH]; intros fuel t Hidle; [reflexivity|].
  destruct (Hidle 0) as [Hres Htime]; [lia|].
  rewrite !Nat.add_0_r in Hres. rewrite Nat.add_0_r in Htime.
  cbn [Nat.add discover_loop]. rewrite (discover_poll_not_found _ Hres).
  rewrite (Qle_bool_false _ _ Htime). rewrite Nat.iter_succ_r. apply IH.
  intros i Hi. destruct (after_idle_poll_counters t) as (-> & -> & -> & _).
  destruct (Hidle (S i)) as [Hres' Htime']; [lia|].
  rewrite <- !Nat.add_succ_comm in Hres'. rewrite <- Nat.add_succ_comm in Htime'.
  done.
Qed.

End Loop.

(** C7.  Let the first [k] polls of [discover] each find too little (the
    advertised services or the characteristics found do not include all
    the expected ones) with less than [timeout_sec] elapsed.  If poll [k]
    finds the advertised services to include every expected service and
    the characteristics found to include every expected characteristic,
    [discover] returns true, after [k] sleeps of one second and without
    reading the clock again.  If poll [k] finds too little and the time
    elapsed has reached [timeout_sec] (in particular, exceeds it),
    [discover] returns false, and raises nothing. *)
Theorem discover_true_or_false (service_uuids char_uuids : list UUID)
    (timeout_sec : Q) (s : state) (k : nat) :
  let elapsed i := (clock E (n_time s + S i) - clock E (n_time s))%Q in
  let found i :=
    poll_result uuid_UUID E (list_to_set service_uuids) (list_to_set char_uuids)
                (n_Get s + i) (n_objects s + i) in
  let polled := Nat.iter k after_idle_poll (tick_time (record EvTime s)) in
  (∀ i, i < k → found i = Some false ∧ (elapsed i < timeout_sec)%Q) →
  (found k = Some true →
   ∀ fuel, k < fuel →
     discover uuid_UUID E fuel service_uuids char_uuids timeout_sec s
     = Some (Return true, after_queries polled)
     ∧ trace (after_queries polled)
       = (trace s ++ [EvTime] ++ concat (replicate k idle_poll) ++ poll_queries)%list)
  ∧
  (found k = Some false → (timeout_sec <= elapsed k)%Q →
   ∀ fuel, k < fuel →
     discover uuid_UUID E fuel service_uuids char_uuids timeout_sec s
     = Some (Return false, tick_time (record EvTime (after_queries polled)))
     ∧ trace (tick_time (record EvTime (after_queries polled)))
       = (trace s ++ [EvTime] ++ concat (replicate k idle_poll)
            ++ poll_queries ++ [EvTime])%list).
Proof.
  cbv beta zeta. intros Hidle.
  set (s0 := tick_time (record EvTime s)).
  assert (Hloop : ∀ fuel,
    discover uuid_UUID E (k + S fuel) service_uuids char_uuids timeout_sec s
    = discover_loop uuid_UUID E (S fuel) (list_to_set service_uuids)
        (list_to_set char_uuids) (clock E (n_time s)) timeout_sec
        (Nat.iter k after_idle_poll s0)).
  { intros fuel. unfold discover, time_time. apply discover_loop_idle.
    intros i Hi. destruct (Hidle i Hi) as [Hres Htime]. split; [exact Hres|].
    replace (n_time s0 + i) with (n_time s + S i) by (simpl; lia).
    exact Htime. }
  destruct (idle_polls_counters k s0) as (Hg & Ho & Ht & Htr).
  cbn [s0 n_Get n_objects n_time trace tick_time record] in Hg, Ho, Ht, Htr.
  split.
  - intros Hfound fuel Hfuel. split.
    + replace fuel with (k + S (fuel - S k)) by lia. rewrite Hloop.
      cbn [discover_loop]. rewrite discover_poll_found; [reflexivity|].
      fold s0. by rewrite Hg, Ho.
    + destruct (after_queries_counters (Nat.iter k after_idle_poll s0))
        as (_ & _ & _ & ->).
      rewrite Htr. by rewrite <- !app_assoc.
  - intros Hfound Htime fuel Hfuel. split.
    + replace fuel with (k + S (fuel - S k)) by lia. rewrite Hloop.
      cbn [discover_loop]. rewrite discover_poll_not_found.
      2: { fold s0. by rewrite Hg, Ho. }
      fold s0. rewrite Ht.
      replace (Qle_bool _ _) with true; [reflexivity|].
      symmetry. apply Qle_bool_iff. by rewrite Nat.add_succ_comm.
    + cbn [trace tick_time record].
      destruct (after_queries_counters (Nat.iter k after_idle_poll s0))
        as (_ & _ & _ & ->).
      fold s0. rewrite Htr. by rewrite <- !app_assoc.
Qed.

(** C8, as the code has it.  With nothing expected, [discover] still
    makes its first poll.  If both queries of that poll answer, it returns
    true whatever the timeout, having read the clock once, never slept and
    made no second poll.  If one of them raises, so does [discover]. *)
Theorem discover_nothing_expected (timeout_sec : Q) (s : state) (fuel : nat) :
  (∀ adv chars,
     seen_services uuid_UUID E (n_Get s) = Return adv →
     char_uuids E (n_objects s) = inr chars →
     discover uuid_UUID E (S fuel) [] [] timeout_sec s
     = Some (Return true, after_queries (tick_time (record EvTime s)))
     ∧ trace (after_queries (tick_time (record EvTime s)))
       = (trace s ++ EvTime :: poll_queries)%list) ∧
  (∀ e,
     seen_services uuid_UUID E (n_Get s) = Raise e
     ∨ (∃ adv, seen_services uuid_UUID E (n_Get s) = Return adv)
       ∧ char_uuids E (n_objects s) = inl e →
     fst <$> discover uuid_UUID E (S fuel) [] [] timeout_sec s = Some (Raise e)).
Proof.
  split.
  - intros adv chars Hadv Hchars. split.
    + unfold discover, time_time. cbn [discover_loop].
      rewrite discover_poll_found; [reflexivity|].
      unfold poll_result. cbn [n_Get n_objects tick_time record].
      rewrite Hadv, Hchars. f_equal.
      apply andb_true_intro. split; apply bool_decide_eq_true; set_solver.
    + destruct (after_queries_counters (tick_time (record EvTime s)))
        as (_ & _ & _ & ->).
      cbn [trace tick_time record]. by rewrite <- app_assoc.
  - intros e He. unfold discover, time_time. cbn [discover_loop].
    unfold discover_poll, bind. rewrite advertised_seen.
    cbn [n_Get n_objects tick_time record].
    destruct He as [-> | [[adv ->] Hchars]]; [reflexivity|].
    unfold get_char_uuids. cbn [n_objects tick_Get tick_time record].
    by rewrite Hchars.
Qed.

End Discovery.

(** ** The theorems on the sample worlds *)

(** C5, as the claim has it, fails: when the bus turns the [Connect]
    request down, [connect] neither waits on the latch nor raises the
    timeout error; the bus error reaches the caller. *)
Lemma connect_rejected_request_propagates :
  fst (connect E_rejects 30 __init__) = Raise (DBusExc BluezFailed)
  ∧ trace (snd (connect E_rejects 30 __init__))
    = [EvClear connected_signal; EvConnect].
Proof. split; reflexivity. Qed.

Lemma connect_clear_request_wait_witness :
  fst (connect (E_notifies true) 30 __init__) = Return tt
  ∧ fst (connect E_down 30 __init__) = Raise ConnectTimeout
  ∧ fst (connect E_rejects 30 __init__) = Raise (DBusExc BluezFailed).
Proof.
  split; [|split].
  - destruct (connect_clear_request_wait (E_notifies true) 30 __init__) as [_ H].
    destruct (H eq_refl) as (_ & _ & ->). reflexivity.
  - destruct (connect_clear_request_wait E_down 30 __init__) as [_ H].
    destruct (H eq_refl) as (_ & _ & ->). reflexivity.
  - destruct (connect_clear_request_wait E_rejects 30 __init__) as [H _].
    apply (H BluezFailed eq_refl).
Defined.

Lemma disconnect_rejected_or_waits_witness :
  (fst (disconnect E_rejects 30 __init__) = Return tt
   ∧ trace (snd (disconnect E_rejects 30 __init__))
     = [EvClear disconnected_signal; EvDisconnect;
        EvLog (LogDisconnectException BluezFailed)])
  ∧ fst (disconnect (E_notifies false) 30 __init__) = Return tt
  ∧ fst (disconnect E_down 30 __init__) = Raise DisconnectTimeout.
Proof.
  split; [|split].
  - destruct (disconnect_rejected_or_waits E_rejects 30 __init__) as [H _].
    apply (H BluezFailed eq_refl).
  - destruct (disconnect_rejected_or_waits (E_notifies false) 30 __init__) as [_ H].
    destruct (H eq_refl) as (_ & _ & ->). reflexivity.
  - destruct (disconnect_rejected_or_waits E_down 30 __init__) as [_ H].
    destruct (H eq_refl) as (_ & _ & ->). reflexivity.
Defined.

Lemma discover_true_or_false_witness :
  fst <$> discover canonical_parse E_discovering 3 [UART_UUID] [UART_TX; UART_RX] 30 __init__
  = Some (Return true)
  ∧ fst <$> discover canonical_parse E_discovering 2 [UART_UUID] [UART_TX; UART_RX] 2 __init__
    = Some (Return false).
Proof.
  split.
  - destruct (discover_true_or_false canonical_parse E_discovering
                [UART_UUID] [UART_TX; UART_RX] 30 __init__ 2) as [H _].
    + intros [|[|i]] Hi; [split; vm_compute; reflexivity ..|lia].
    + destruct (H eq_refl 3) as [-> _]; [lia|reflexivity].
  - destruct (discover_true_or_false canonical_parse E_discovering
                [UART_UUID] [UART_TX; UART_RX] 2 __init__ 1) as [_ H].
    + intros [|i] Hi; [split; vm_compute; reflexivity|lia].
    + destruct (H eq_refl) with (fuel := 2) as [-> _];
        [vm_compute; discriminate|lia|reflexivity].
Defined.

(** C8, as the claim has it, fails: with a bus that answers no read,
    [discover([], [])] does not return true; the error of the first poll's
    read of [UUIDs] reaches the caller, however many trips the loop is
    allowed. *)
Lemma discover_nothing_expected_raises :
  fst <$> discover canonical_parse E_down 1 [] [] 30 __init__
  = Some (Raise (DBusExc NoReply))
  ∧ fst <$> discover canonical_parse E_down 1000 [] [] 30 __init__
    = Some (Raise (DBusExc NoReply)).
Proof. split; vm_compute; reflexivity. Qed.

Lemma discover_nothing_expected_witness :
  fst <$> discover canonical_parse E_uart 1 [] [] 30 __init__ = Some (Return true)
  ∧ fst <$> discover canonical_parse E_uart 1 [] [] 0 __init__ = Some (Return true)
  ∧ fst <$> discover canonical_parse E_down 1 [] [] 30 __init__
    = Some (Raise (DBusExc NoReply)).
Proof.
  split; [|split].
  - destruct (discover_nothing_expected canonical_parse E_uart 30 __init__ 0) as [H _].
    destruct (H [UART_UUID] []) as [-> _]; [vm_compute; reflexivity ..|reflexivity].
  - destruct (discover_nothing_expected canonical_parse E_uart 0 __init__ 0) as [H _].
    destruct (H [UART_UUID] []) as [-> _]; [vm_compute; reflexivity ..|reflexivity].
  - destruct (discover_nothing_expected canonical_parse E_down 30 __init__ 0) as [_ H].
    apply H. left. vm_compute. reflexivity.
Defined.

(** ** Further properties of the accessors *)

Section MoreAccessors.

Variable E : environment.

Lemma name_cases s :
  name E s =
  (match props_Get E (n_Get s) _INTERFACE "Name" with
   | inr v => Return (Some v)
   | inl _ => Return None
   end, tick_Get (record (EvGet _INTERFACE "Name") s)).
Proof.
  unfold name, try_except, bind, Get.
  by destruct (props_Get E (n_Get s) _INTERFACE "Name").
Qed.

(** X1.  [name] never raises, whatever the bus does, and keeps nothing
    from one read to the next: a read that fails right after a read that
    succeeded returns [None], not the earlier name, and [backup_rssi] is
    never touched. *)
Theorem name_never_raises_nor_remembers (s : state) :
  (∀ e, fst (name E s) ≠ Raise e) ∧
  backup_rssi (snd (name E s)) = backup_rssi s ∧
  (∀ v ex,
     props_Get E (n_Get s) _INTERFACE "Name" = inr v →
     props_Get E (S (n_Get s)) _INTERFACE "Name" = inl ex →
     fst (name E s) = Return (Some v) ∧
     fst (name E (snd (name E s))) = Return None).
Proof.
  rewrite name_cases. cbn [fst snd]. split; [|split].
  - intros e. by destruct (props_Get E (n_Get s) _INTERFACE "Name").
  - reflexivity.
  - intros v ex Hok Hfail. rewrite Hok. split; [reflexivity|].
    rewrite name_cases. cbn [fst n_Get tick_Get record]. by rewrite Hfail.
Qed.

(** Whatever the bus answers, [rssi] leaves [backup_rssi] bound if it was
    bound or if the read succeeded, and what it returns is what it leaves
    in [backup_rssi]. *)
Lemma rssi_cases s :
  rssi E s =
  match props_Get E (n_Get s) _INTERFACE "RSSI" with
  | inr v =>
      (Return v, set_backup_rssi v (tick_Get (record (EvGet _INTERFACE "RSSI") s)))
  | inl _ =>
      (match backup_rssi s with
       | Some v => Return v
       | None => Raise (AttributeError "backup_rssi")
       end, tick_Get (record (EvGet _INTERFACE "RSSI") s))
  end.
Proof.
  destruct (props_Get E (n_Get s) _INTERFACE "RSSI") as [ex|v] eqn:H.
  - by apply rssi_fails with ex.
  - by apply rssi_ok.
Qed.

(** X2.  Once [backup_rssi] is bound, no read of [rssi] ever raises, on
    any bus: each of [n] reads in a row returns a value, and the attribute
    is still bound afterwards. *)
Theorem rssi_never_raises_once_bound (n : nat) (s : state) :
  backup_rssi s ≠ None →
  Forall (fun o => ∃ v, o = Return v) (fst (rssi_reads E n s))
  ∧ backup_rssi (snd (rssi_reads E n s)) ≠ None.
Proof.
  revert s. induction n as [|n IH]; intros s Hbound; cbn [rssi_reads].
  - split; [constructor|exact Hbound].
  - rewrite rssi_cases.
    destruct (props_Get E (n_Get s) _INTERFACE "RSSI") as [ex|v].
    + destruct (backup_rssi s) as [X|] eqn:HX; [|done].
      specialize (IH (tick_Get (record (EvGet _INTERFACE "RSSI") s))).
      destruct (rssi_reads E n _) as [os s2]. cbn [fst snd] in *.
      destruct IH as [Hos Hs2]; [cbn; by rewrite HX|].
      split; [constructor; eauto|exact Hs2].
    + specialize (IH (set_backup_rssi v
                        (tick_Get (record (EvGet _INTERFACE "RSSI") s)))).
      destruct (rssi_reads E n _) as [os s2]. cbn [fst snd] in *.
      destruct IH as [Hos Hs2]; [done|].
      split; [constructor; eauto|exact Hs2].
Qed.

(** X3.  While the bus keeps failing, [rssi] keeps returning the value
    [X] it holds in [backup_rssi]: [n] failing reads in a row all return
    [X], each after exactly one attempt, and [X] is still held at the
    end. *)
Theorem rssi_keeps_last_known_value (n : nat) (s : state) (X : dbus_value) :
  backup_rssi s = Some X →
  (∀ i, i < n → ∃ ex, props_Get E (n_Get s + i) _INTERFACE "RSSI" = inl ex) →
  fst (rssi_reads E n s) = replicate n (Return X)
  ∧ backup_rssi (snd (rssi_reads E n s)) = Some X
  ∧ n_Get (snd (rssi_reads E n s)) = n_Get s + n.
Proof.
  revert s. induction n as [|n IH]; intros s HX Hfail; cbn [rssi_reads].
  - cbn. by rewrite Nat.add_0_r.
  - destruct (Hfail 0) as [ex Hex]; [lia|]. rewrite Nat.add_0_r in Hex.
    rewrite (rssi_fails _ _ _ Hex), HX.
    specialize (IH (tick_Get (record (EvGet _INTERFACE "RSSI") s))).
    destruct (rssi_reads E n _) as [os s2]. cbn [fst snd] in *.
    destruct IH as (-> & -> & ->); [exact HX| |].
    + intros i Hi. destruct (Hfail (S i)) as [ex' Hex']; [lia|].
      exists ex'. cbn [n_Get tick_Get record].
      by rewrite Nat.add_succ_comm.
    + repeat split. cbn [n_Get tick_Get record]. lia.
Qed.

(** X4.  [_prop_get] raises nothing but the bus error of its third read:
    if it raises, all three reads have failed and the exception is the
    [DBusException] of the third.  If it returns a value, that value is
    the answer of one of the first three reads and every read before that
    one has failed. *)
Theorem prop_get_outcome_inversion (name : string) (s : state) :
  let reply k := props_Get E (n_Get s + k) _INTERFACE name in
  (∀ e, fst (_prop_get E name s) = Raise e →
        ∃ e0 e1 e2, reply 0 = inl e0 ∧ reply 1 = inl e1 ∧ reply 2 = inl e2
                    ∧ e = DBusExc e2) ∧
  (∀ v, fst (_prop_get E name s) = Return v →
        ∃ k, k < 3 ∧ reply k = inr v ∧ ∀ j, j < k → ∃ ej, reply j = inl ej).
Proof.
  cbv beta zeta. replace (n_Get s + 0) with (n_Get s) by lia.
  replace (n_Get s + 1) with (S (n_Get s)) by lia.
  replace (n_Get s + 2) with (S (S (n_Get s))) by lia.
  unfold _prop_get. cbn [seq DBUS_METHOD_ACCESS_TENTATIVE].
  destruct (props_Get E (n_Get s) _INTERFACE name) as [e0|v0] eqn:H0.
  2: { rewrite (_prop_get_loop_ok _ _ _ _ _ _ _ H0). split; [done|].
       intros v [= <-]. exists 0. rewrite Nat.add_0_r.
       split; [lia|]. split; [exact H0|]. intros j Hj. lia. }
  rewrite (_prop_get_loop_fails _ _ _ _ _ _ _ H0).
  destruct (props_Get E (S (n_Get s)) _INTERFACE name) as [e1|v1] eqn:H1.
  2: { rewrite (_prop_get_loop_ok _ _ _ _ _ _ v1); [|exact H1]. split; [done|].
       intros v [= <-]. exists 1. replace (n_Get s + 1) with (S (n_Get s)) by lia.
       split; [lia|]. split; [exact H1|]. intros j Hj.
       assert (j = 0) as -> by lia. rewrite Nat.add_0_r. eauto. }
  rewrite (_prop_get_loop_fails _ _ _ _ _ _ e1); [|exact H1].
  destruct (props_Get E (S (S (n_Get s))) _INTERFACE name) as [e2|v2] eqn:H2.
  2: { rewrite (_prop_get_loop_ok _ _ _ _ _ _ v2); [|exact H2]. split; [done|].
       intros v [= <-]. exists 2.
       replace (n_Get s + 2) with (S (S (n_Get s))) by lia.
       split; [lia|]. split; [exact H2|]. intros j Hj.
       destruct j as [|[|j]]; [rewrite Nat.add_0_r; eauto| |lia].
       replace (n_Get s + 1) with (S (n_Get s)) by lia. eauto. }
  rewrite (_prop_get_loop_fails _ _ _ _ _ _ e2); [|exact H2].
  split; [|done]. intros e [= <-]. by exists e0, e1, e2.
Qed.

End MoreAccessors.

Section MoreAdvertised.

Variable uuid_UUID : string → option UUID.
Variable uuid_str : UUID → string.
Variable E : environment.

(** X5.  [advertised_data] makes one read of [ServiceData].  When the
    read fails with the error named
    [org.freedesktop.DBus.Error.InvalidArgs] it returns [None]; when the
    read fails with an error of any other name, that error is raised. *)
Theorem advertised_data_policy (service_uuid : UUID) (s : state) :
  trace (snd (advertised_data uuid_str E service_uuid s))
  = (trace s ++ [EvGet _INTERFACE "ServiceData"])%list ∧
  (∀ ex, props_Get E (n_Get s) _INTERFACE "ServiceData" = inl ex →
         get_dbus_name ex = InvalidArgs →
         fst (advertised_data uuid_str E service_uuid s) = Return None) ∧
  (∀ ex, props_Get E (n_Get s) _INTERFACE "ServiceData" = inl ex →
         get_dbus_name ex ≠ InvalidArgs →
         fst (advertised_data uuid_str E service_uuid s) = Raise (DBusExc ex)).
Proof.
  unfold advertised_data, bind, try_except_DBus, try_except, Get.
  destruct (props_Get E (n_Get s) _INTERFACE "ServiceData") as [ex|v] eqn:H.
  - cbn [fst snd]. split; [|split].
    + by destruct (negb _).
    + intros ex' [= <-] Hname. by rewrite Hname.
    + intros ex' [= <-] Hname. apply String.eqb_neq in Hname. by rewrite Hname.
  - split; [|done].
    destruct v as [b|z|str|xs|d]; try reflexivity.
    cbn [py_getitem]. by destruct (d !! uuid_str service_uuid).
Qed.

Lemma list_comp_parse_malformed (xs : list string) (s : state) :
  Exists (fun x => uuid_UUID x = None) xs →
  list_comp (parse_UUID uuid_UUID) xs s
  = (Raise (ValueError "badly formed hexadecimal UUID string"), s).
Proof.
  induction xs as [|x xs IH]; intros Hex; [by apply Exists_nil in Hex|].
  cbn [list_comp]. unfold bind. unfold parse_UUID at 1.
  destruct (uuid_UUID x) as [u|] eqn:Hx; [|reflexivity].
  apply Exists_cons in Hex as [Hbad | Hrest]; [congruence|].
  cbn. by rewrite (IH Hrest).
Qed.

(** X6.  One advertised value that is not a well-formed UUID makes the
    whole of [advertised] fail: when the read of [UUIDs] succeeds with an
    array of strings one of which [uuid.UUID] refuses, [advertised] raises
    [ValueError] and returns no part of the list. *)
Theorem advertised_malformed_value_raises (s : state) (xs : list string) :
  props_Get E (n_Get s) _INTERFACE "UUIDs" = inr (DStrArray xs) →
  Exists (fun x => uuid_UUID x = None) xs →
  fst (advertised uuid_UUID E s)
  = Raise (ValueError "badly formed hexadecimal UUID string").
Proof.
  intros H Hbad. unfold advertised, bind, try_except_DBus, try_except.
  rewrite (Get_ok _ _ _ _ _ H). cbn [lift py_iter_str]. unfold ret.
  by rewrite (list_comp_parse_malformed _ _ Hbad).
Qed.

End MoreAdvertised.

(** ** Further properties of the latches *)

Lemma state_ext (s t : state) :
  _connected s = _connected t → _disconnected s = _disconnected t →
  backup_rssi s = backup_rssi t → n_Get s = n_Get t → n_call s = n_call t →
  n_blocked s = n_blocked t → n_time s = n_time t → n_objects s = n_objects t →
  trace s = trace t → s = t.
Proof. destruct s, t. cbn. by intros -> -> -> -> -> -> -> -> ->. Qed.

Lemma existsb_Permutation {A} (f : A → bool) (l l' : list A) :
  l ≡ₚ l' → existsb f l = existsb f l'.
Proof.
  induction 1 as [|x l l' _ IH|x y l|l l' l'' _ IH1 _ IH2]; cbn.
  - reflexivity.
  - by rewrite IH.
  - by destruct (f x), (f y).
  - by rewrite IH1.
Qed.

(** X7.  The handler only ever sets latches: a latch that is set stays
    set through any run of notifications.  A single notification sets at
    most one of the two latches.  And the state after a run of
    notifications does not depend on the order in which they are
    delivered. *)
Theorem handler_only_sets_latches (ns ns' : list notification) (s : state) :
  (∀ l, flag l s = true → flag l (deliver ns s) = true) ∧
  (∀ n, fires connected_signal n && fires disconnected_signal n = false) ∧
  (ns ≡ₚ ns' → deliver ns s = deliver ns' s).
Proof.
  split; [|split].
  - intros l Hl. by rewrite deliver_flag, Hl.
  - intros n. unfold fires.
    destruct (String.eqb (n_iface n) _INTERFACE); [|reflexivity].
    destruct (n_changed_props n !! "Connected") as [[[]|z| | |]|]; try reflexivity.
    cbn. destruct (Z.eqb_spec z 1) as [->|]; reflexivity.
  - intros Hperm.
    destruct (deliver_rest ns s) as (? & ? & ? & ? & ? & ? & ?).
    destruct (deliver_rest ns' s) as (? & ? & ? & ? & ? & ? & ?).
    apply state_ext; try congruence.
    + change (flag connected_signal (deliver ns s)
              = flag connected_signal (deliver ns' s)).
      by rewrite !deliver_flag, (existsb_Permutation _ _ _ Hperm).
    + change (flag disconnected_signal (deliver ns s)
              = flag disconnected_signal (deliver ns' s)).
      by rewrite !deliver_flag, (existsb_Permutation _ _ _ Hperm).
Qed.

Section MoreConnection.

Variable E : environment.

Lemma fires_inv l n :
  fires l n = true →
  n_iface n = _INTERFACE
  ∧ ∃ v, n_changed_props n !! "Connected" = Some v
         ∧ py_eq_int v (match l with connected_signal => 1
                                | disconnected_signal => 0 end) = true.
Proof.
  unfold fires. intros H. apply andb_true_iff in H as [Hi Hc].
  apply String.eqb_eq in Hi. split; [exact Hi|].
  destruct (n_changed_props n !! "Connected") as [v|]; [eauto|discriminate].
Qed.

(** X8.  [connect] returns normally only if the request was accepted and
    a notification delivered after the clear (during the request or
    during the wait) was for the device interface and carried a
    [Connected] entry equal to true.  A latch left set by an earlier
    connection never lets [connect] through. *)
Theorem connect_returns_only_when_notified (timeout_sec : Q) (s : state) :
  fst (connect E timeout_sec s) = Return tt →
  device_reply E (n_call s) = None
  ∧ ∃ n, n ∈ (dispatched E (n_blocked s) ++ dispatched E (S (n_blocked s)))%list
         ∧ n_iface n = _INTERFACE
         ∧ ∃ v, n_changed_props n !! "Connected" = Some v ∧ py_eq_int v 1 = true.
Proof.
  rewrite connect_unfold. cbv zeta.
  destruct (device_reply E (n_call s)); [discriminate|]. cbn [fst].
  change (_connected ?x) with (flag connected_signal x).
  pose proof (flag_after_request_and_wait E connected_signal EvConnect []
    (EvWait connected_signal timeout_sec)
    (record (EvClear connected_signal) (set_flag connected_signal false s))) as Hflag.
  cbn [fold_right] in Hflag. rewrite Hflag. clear Hflag.
  change (n_blocked (record _ (set_flag _ _ s))) with (n_blocked s).
  change (flag connected_signal (record _ (set_flag connected_signal false s)))
    with false.
  cbn [orb]. intros Hret. split; [reflexivity|].
  destruct (existsb _ _) eqn:Hex; [|discriminate].
  apply existsb_exists in Hex as (n & Hin & Hfires).
  exists n. split; [by apply list_elem_of_In|].
  apply (fires_inv connected_signal n Hfires).
Qed.

(** X9.  [disconnect] never lets a bus error out.  If it raises, the
    exception is the timeout [RuntimeError], the request had been
    accepted, and no notification delivered after the clear set the
    disconnected latch. *)
Theorem disconnect_raises_only_timeout (timeout_sec : Q) (s : state) (e : exn) :
  fst (disconnect E timeout_sec s) = Raise e →
  e = DisconnectTimeout
  ∧ device_reply E (n_call s) = None
  ∧ existsb (fires disconnected_signal)
      (dispatched E (n_blocked s) ++ dispatched E (S (n_blocked s))) = false.
Proof.
  rewrite disconnect_unfold. cbv zeta.
  destruct (device_reply E (n_call s)); [discriminate|]. cbn [fst].
  change (_disconnected ?x) with (flag disconnected_signal x).
  pose proof (flag_after_request_and_wait E disconnected_signal EvDisconnect
    [EvLog LogDisconnected] (EvWait disconnected_signal timeout_sec)
    (record (EvClear disconnected_signal)
            (set_flag disconnected_signal false s))) as Hflag.
  cbn [fold_right] in Hflag. rewrite Hflag. clear Hflag.
  change (n_blocked (record _ (set_flag _ _ s))) with (n_blocked s).
  change (flag disconnected_signal
            (record _ (set_flag disconnected_signal false s))) with false.
  cbn [orb]. destruct (existsb _ _); [discriminate|].
  by intros [= <-].
Qed.

Lemma connect_returns_latch_set timeout_sec s :
  fst (connect E timeout_sec s) = Return tt →
  _connected (snd (connect E timeout_sec s)) = true.
Proof.
  rewrite connect_unfold. cbv zeta.
  destruct (device_reply E (n_call s)); [discriminate|]. cbn [fst snd].
  by destruct (_connected _).
Qed.

Lemma disconnect_keeps_connected timeout_sec s :
  _connected s = true → _connected (snd (disconnect E timeout_sec s)) = true.
Proof.
  intros Hs. rewrite disconnect_unfold. cbv zeta.
  destruct (device_reply E (n_call s)) as [ex|]; cbn [fst snd];
    change (_connected ?x) with (flag connected_signal x).
  - pose proof (flag_after_request E connected_signal EvDisconnect
      [EvLog (LogDisconnectException ex)]
      (record (EvClear disconnected_signal)
              (set_flag disconnected_signal false s))) as Hflag.
    cbn [fold_right] in Hflag. rewrite Hflag. cbn. by rewrite Hs.
  - pose proof (flag_after_request_and_wait E connected_signal EvDisconnect
      [EvLog LogDisconnected] (EvWait disconnected_signal timeout_sec)
      (record (EvClear disconnected_signal)
              (set_flag disconnected_signal false s))) as Hflag.
    cbn [fold_right] in Hflag. rewrite Hflag. cbn. by rewrite Hs.
Qed.

(** X10.  The connected latch is not the connection state: after a
    [connect] that returned normally, a [disconnect] (whether it returns,
    times out or is turned down) leaves the connected latch set.  Only the
    clear at the start of the next [connect] resets it. *)
Theorem connected_latch_survives_disconnect (t_connect t_disconnect : Q) (s : state) :
  fst (connect E t_connect s) = Return tt →
  _connected (snd (disconnect E t_disconnect (snd (connect E t_connect s)))) = true.
Proof.
  intros Hret. apply disconnect_keeps_connected. by apply connect_returns_latch_set.
Qed.

End MoreConnection.

(** ** Further properties of discovery *)

Section MoreDiscovery.

Variable uuid_UUID : string → option UUID.
Variable E : environment.

(** [discover] after [k] polls that found too little with time left. *)
Lemma discover_skips_idle_polls service_uuids char_uuids timeout_sec s k fuel :
  (∀ i, i < k →
     poll_result uuid_UUID E (list_to_set service_uuids) (list_to_set char_uuids)
                 (n_Get s + i) (n_objects s + i) = Some false
     ∧ (clock E (n_time s + S i) - clock E (n_time s) < timeout_sec)%Q) →
  discover uuid_UUID E (k + fuel) service_uuids char_uuids timeout_sec s
  = discover_loop uuid_UUID E fuel (list_to_set service_uuids)
      (list_to_set char_uuids) (clock E (n_time s)) timeout_sec
      (Nat.iter k after_idle_poll (tick_time (record EvTime s))).
Proof.
  intros Hidle. unfold discover, time_time. apply discover_loop_idle.
  intros i Hi. destruct (Hidle i Hi) as [Hres Htime]. split; [exact Hres|].
  replace (n_time (tick_time (record EvTime s)) + i) with (n_time s + S i)
    by (cbn; lia).
  exact Htime.
Qed.

(** X11.  [discover] takes its expectations as sets: two calls whose lists
    of expected services have the same elements, and whose lists of
    expected characteristics have the same elements, behave alike,
    whatever the order and the repetitions in the lists. *)
Theorem discover_expectations_are_sets
    (fuel : nat) (services services' chars chars' : list UUID)
    (timeout_sec : Q) (s : state) :
  (∀ u, u ∈ services ↔ u ∈ services') →
  (∀ u, u ∈ chars ↔ u ∈ chars') →
  discover uuid_UUID E fuel services chars timeout_sec s
  = discover uuid_UUID E fuel services' chars' timeout_sec s.
Proof.
  intros Hs Hc. unfold discover.
  replace (list_to_set services' : gset UUID) with (list_to_set services : gset UUID).
  2: { apply set_eq. intros u. rewrite !elem_of_list_to_set. apply Hs. }
  replace (list_to_set chars' : gset UUID) with (list_to_set chars : gset UUID).
  2: { apply set_eq. intros u. rewrite !elem_of_list_to_set. apply Hc. }
  reflexivity.
Qed.

(** X12.  [discover] does not shield its caller from the bus: when, after
    [k] polls that found too little with time left, one of the two queries
    of the next poll raises, [discover] raises that very exception. *)
Theorem discover_poll_error_propagates (service_uuids characteristic_uuids : list UUID)
    (timeout_sec : Q) (s : state) (k : nat) :
  let elapsed i := (clock E (n_time s + S i) - clock E (n_time s))%Q in
  let found i :=
    poll_result uuid_UUID E (list_to_set service_uuids) (list_to_set characteristic_uuids)
                (n_Get s + i) (n_objects s + i) in
  (∀ i, i < k → found i = Some false ∧ (elapsed i < timeout_sec)%Q) →
  found k = None →
  ∀ fuel, k < fuel →
    ∃ e, fst <$> discover uuid_UUID E fuel service_uuids characteristic_uuids timeout_sec s
         = Some (Raise e)
         ∧ (seen_services uuid_UUID E (n_Get s + k) = Raise e
            ∨ char_uuids E (n_objects s + k) = inl e).
Proof.
  cbv beta zeta. intros Hidle Hnone fuel Hfuel.
  replace fuel with (k + S (fuel - S k)) by lia.
  rewrite (discover_skips_idle_polls _ _ _ _ _ _ Hidle). cbn [discover_loop].
  set (t := Nat.iter k after_idle_poll (tick_time (record EvTime s))).
  destruct (idle_polls_counters k (tick_time (record EvTime s)))
    as (Hg & Ho & _ & _).
  fold t in Hg, Ho. cbn [n_Get n_objects tick_time record] in Hg, Ho.
  destruct (discover_poll_raises uuid_UUID E (list_to_set service_uuids)
              (list_to_set characteristic_uuids) (clock E (n_time s)) timeout_sec t)
    as (e & He & Hwhich).
  { by rewrite Hg, Ho. }
  exists e. rewrite Hg, Ho in Hwhich. split; [|exact Hwhich].
  destruct (discover_poll _ _ _ _ _ _ t) as [[[b|]|e'] t']; cbn in He; try discriminate.
  by injection He as ->.
Qed.

(** X13.  The loop of [discover] ends only through a poll: if every poll
    finds too little and the clock never shows [timeout_sec] elapsed (a
    clock that stands still, say), [discover] never returns, however long
    it is left running. *)
Theorem discover_needs_the_clock (service_uuids char_uuids : list UUID)
    (timeout_sec : Q) (s : state) :
  let elapsed i := (clock E (n_time s + S i) - clock E (n_time s))%Q in
  let found i :=
    poll_result uuid_UUID E (list_to_set service_uuids) (list_to_set char_uuids)
                (n_Get s + i) (n_objects s + i) in
  (∀ i, found i = Some false ∧ (elapsed i < timeout_sec)%Q) →
  ∀ fuel, discover uuid_UUID E fuel service_uuids char_uuids timeout_sec s = None.
Proof.
  cbv beta zeta. intros Hidle fuel.
  replace fuel with (fuel + 0) by lia.
  rewrite discover_skips_idle_polls; [reflexivity|].
  intros i _. apply Hidle.
Qed.

Section Bounds.

Variables expected_services expected_chars : gset UUID.
Variables start timeout_sec : Q.

(** If the [m]-th reading of the clock from now shows the timeout
    elapsed and no poll up to then raises, the loop returns within
    [m + 1] polls. *)
Lemma discover_loop_bounded m : ∀ fuel t,
  m < fuel →
  (∀ i : nat, (i ≤ m)%nat →
     poll_result uuid_UUID E expected_services expected_chars
                 (n_Get t + i) (n_objects t + i) ≠ None) →
  (timeout_sec <= clock E (n_time t + m) - start)%Q →
  ∃ b t', discover_loop uuid_UUID E fuel expected_services expected_chars
            start timeout_sec t = Some (Return b, t')
          ∧ (n_Get t' ≤ n_Get t + S m)%nat.
Proof.
  induction m as [|m IH]; intros fuel t Hfuel Hpolls Htime;
    (destruct fuel as [|fuel]; [lia|]); cbn [discover_loop].
  - specialize (Hpolls 0 (Nat.le_refl _)). rewrite !Nat.add_0_r in Hpolls.
    rewrite Nat.add_0_r in Htime.
    destruct (poll_result _ _ _ _ (n_Get t) (n_objects t)) as [[|]|] eqn:Hres; [| |done].
    + rewrite (discover_poll_found _ _ _ _ _ _ _ Hres).
      eexists _, _. split; [reflexivity|].
      destruct (after_queries_counters t) as (-> & _). lia.
    + rewrite (discover_poll_not_found _ _ _ _ _ _ _ Hres).
      apply Qle_bool_iff in Htime. rewrite Htime.
      eexists _, _. split; [reflexivity|]. cbn [n_Get tick_time record].
      destruct (after_queries_counters t) as (-> & _). lia.
  - pose proof (Hpolls 0 (Nat.le_0_l _)) as H0. rewrite !Nat.add_0_r in H0.
    destruct (poll_result _ _ _ _ (n_Get t) (n_objects t)) as [[|]|] eqn:Hres; [| |done].
    + rewrite (discover_poll_found _ _ _ _ _ _ _ Hres).
      eexists _, _. split; [reflexivity|].
      destruct (after_queries_counters t) as (-> & _). lia.
    + rewrite (discover_poll_not_found _ _ _ _ _ _ _ Hres).
      destruct (Qle_bool _ _).
      * eexists _, _. split; [reflexivity|]. cbn [n_Get tick_time record].
        destruct (after_queries_counters t) as (-> & _). lia.
      * destruct (after_idle_poll_counters t) as (Hg & Ho & Ht & _).
        destruct (IH fuel (after_idle_poll t)) as (b & t' & Hret & Hn).
        -- lia.
        -- intros i Hi. rewrite Hg, Ho.
           rewrite !Nat.add_succ_comm. apply Hpolls. lia.
        -- rewrite Ht. by rewrite Nat.add_succ_comm.
        -- exists b, t'. split; [exact Hret|]. rewrite Hg in Hn. lia.
Qed.

(** What a returned [b] says about the polls made. *)
Lemma discover_loop_inv fuel : ∀ t b t',
  discover_loop uuid_UUID E fuel expected_services expected_chars
                start timeout_sec t = Some (Return b, t') →
  ∃ k, k < fuel
       ∧ (∀ i, i < k →
            poll_result uuid_UUID E expected_services expected_chars
                        (n_Get t + i) (n_objects t + i) = Some false
            ∧ (clock E (n_time t + i) - start < timeout_sec)%Q)
       ∧ poll_result uuid_UUID E expected_services expected_chars
                     (n_Get t + k) (n_objects t + k) = Some b
       ∧ (b = false → (timeout_sec <= clock E (n_time t + k) - start)%Q).
Proof.
  induction fuel as [|fuel IH]; intros t b t'; cbn [discover_loop]; [discriminate|].
  destruct (poll_result uuid_UUID E expected_services expected_chars
              (n_Get t) (n_objects t)) as [[|]|] eqn:Hres.
  - rewrite (discover_poll_found _ _ _ _ _ _ _ Hres). intros [= <- <-].
    exists 0. rewrite !Nat.add_0_r. split; [lia|]. split; [intros i Hi; lia|].
    split; [exact Hres|discriminate].
  - rewrite (discover_poll_not_found _ _ _ _ _ _ _ Hres).
    destruct (Qle_bool timeout_sec (clock E (n_time t) - start)) eqn:Hle.
    + intros [= <- <-]. exists 0. rewrite !Nat.add_0_r.
      split; [lia|]. split; [intros i Hi; lia|]. split; [exact Hres|].
      intros _. by apply Qle_bool_iff.
    + intros Hret. apply IH in Hret as (k & Hk & Hidle & Hfound & Hfalse).
      destruct (after_idle_poll_counters t) as (Hg & Ho & Ht & _).
      rewrite Hg, Ho in Hfound. rewrite Ht in Hfalse.
      exists (S k). split; [lia|]. split; [|split].
      * intros [|i] Hi.
        -- rewrite !Nat.add_0_r. split; [exact Hres|].
           apply Qnot_le_lt. intros Hq. apply Qle_bool_iff in Hq. congruence.
        -- destruct (Hidle i) as [Hr Hq]; [lia|].
           rewrite Hg, Ho in Hr. rewrite Ht in Hq.
           rewrite <- !Nat.add_succ_comm. by split.
      * by rewrite <- !Nat.add_succ_comm.
      * rewrite <- Nat.add_succ_comm. exact Hfalse.
  - destruct (discover_poll_raises uuid_UUID E expected_services expected_chars
                start timeout_sec t Hres) as (e & He & _).
    destruct (discover_poll _ _ _ _ _ _ t) as [[[b'|]|e'] t'']; cbn in He;
      discriminate.
Qed.

End Bounds.

(** X14.  [discover] does return once the clock says so: if the reading
    taken at poll [m] shows [timeout_sec] elapsed and none of the polls up
    to that one raises, [discover] returns true or false, raises nothing,
    and has made at most [m + 1] polls. *)
Theorem discover_returns_by_the_timeout (service_uuids char_uuids : list UUID)
    (timeout_sec : Q) (s : state) (m : nat) :
  let elapsed i := (clock E (n_time s + S i) - clock E (n_time s))%Q in
  let found i :=
    poll_result uuid_UUID E (list_to_set service_uuids) (list_to_set char_uuids)
                (n_Get s + i) (n_objects s + i) in
  (∀ i : nat, (i ≤ m)%nat → found i ≠ None) →
  (timeout_sec <= elapsed m)%Q →
  ∀ fuel, m < fuel →
    ∃ b s', discover uuid_UUID E fuel service_uuids char_uuids timeout_sec s
            = Some (Return b, s')
            ∧ (n_Get s' ≤ n_Get s + S m)%nat.
Proof.
  cbv beta zeta. intros Hpolls Htime fuel Hfuel. unfold discover, time_time.
  destruct (discover_loop_bounded (list_to_set service_uuids)
              (list_to_set char_uuids) (clock E (n_time s)) timeout_sec
              m fuel (tick_time (record EvTime s)))
    as (b & s' & Hret & Hn); [exact Hfuel|exact Hpolls| |by exists b, s'].
  cbn [n_time tick_time record].
  by replace (S (n_time s) + m) with (n_time s + S m) by lia.
Qed.

(** X15.  What [discover] returns can be relied on.  If it returns true,
    its last poll found every expected service among the advertised ones
    and every expected characteristic among those enumerated.  If it
    returns false, its last poll found too little and the clock then
    showed at least [timeout_sec] elapsed: it never gives up early.  In
    both cases every earlier poll had found too little with time left. *)
Theorem discover_result_sound (fuel : nat) (service_uuids characteristic_uuids : list UUID)
    (timeout_sec : Q) (s s' : state) (b : bool) :
  let elapsed i := (clock E (n_time s + S i) - clock E (n_time s))%Q in
  let found i :=
    poll_result uuid_UUID E (list_to_set service_uuids) (list_to_set characteristic_uuids)
                (n_Get s + i) (n_objects s + i) in
  discover uuid_UUID E fuel service_uuids characteristic_uuids timeout_sec s
  = Some (Return b, s') →
  ∃ k, (∀ i, i < k → found i = Some false ∧ (elapsed i < timeout_sec)%Q)
       ∧ found k = Some b
       ∧ (b = false → (timeout_sec <= elapsed k)%Q)
       ∧ (b = true →
          ∃ adv chars,
            seen_services uuid_UUID E (n_Get s + k) = Return adv
            ∧ char_uuids E (n_objects s + k) = inr chars
            ∧ (∀ u, u ∈ service_uuids → u ∈ adv)
            ∧ (∀ u, u ∈ characteristic_uuids → u ∈ chars)).
Proof.
  cbv beta zeta. unfold discover, time_time. intros Hret.
  apply discover_loop_inv in Hret as (k & _ & Hidle & Hfound & Hfalse).
  cbn [n_Get n_objects n_time tick_time record] in Hidle, Hfound, Hfalse.
  exists k. split; [|split; [exact Hfound|split]].
  - intros i Hi. destruct (Hidle i Hi) as [Hr Hq]. split; [exact Hr|].
    by replace (n_time s + S i) with (S (n_time s) + i) by lia.
  - intros Hb. specialize (Hfalse Hb).
    by replace (n_time s + S k) with (S (n_time s) + k) by lia.
  - intros ->. unfold poll_result in Hfound.
    destruct (seen_services uuid_UUID E (n_Get s + k)) as [adv|]; [|discriminate].
    destruct (char_uuids E (n_objects s + k)) as [|chars]; [discriminate|].
    injection Hfound as Hfound. apply andb_true_iff in Hfound as [Hs Hc].
    apply bool_decide_eq_true in Hs, Hc.
    exists adv, chars. repeat split; [intros u Hu|intros u Hu].
    + apply (elem_of_list_to_set (C := gset UUID)). apply Hs.
      by apply elem_of_list_to_set.
    + apply (elem_of_list_to_set (C := gset UUID)). apply Hc.
      by apply elem_of_list_to_set.
Qed.

End MoreDiscovery.

(** ** The further properties on the sample worlds *)

Lemma name_never_raises_nor_remembers_witness :
  fst (name E_name_once __init__) = Return (Some (DString "Bluefruit52"))
  ∧ fst (name E_name_once (snd (name E_name_once __init__))) = Return None.
Proof.
  destruct (name_never_raises_nor_remembers E_name_once __init__) as (_ & _ & H).
  apply (H (DString "Bluefruit52") NoReply); reflexivity.
Defined.

Lemma rssi_never_raises_once_bound_witness :
  Forall (fun o => ∃ v, o = Return v)
         (fst (rssi_reads E_rssi_once 3 (snd (rssi E_rssi_once __init__))))
  ∧ backup_rssi (snd (rssi_reads E_rssi_once 3 (snd (rssi E_rssi_once __init__))))
    ≠ None.
Proof.
  apply (rssi_never_raises_once_bound E_rssi_once 3 (snd (rssi E_rssi_once __init__))).
  vm_compute. discriminate.
Defined.

Lemma rssi_keeps_last_known_value_witness :
  fst (rssi_reads E_rssi_once 3 (snd (rssi E_rssi_once __init__)))
  = [Return (DInt (-60)); Return (DInt (-60)); Return (DInt (-60))]
  ∧ backup_rssi (snd (rssi_reads E_rssi_once 3 (snd (rssi E_rssi_once __init__))))
    = Some (DInt (-60))
  ∧ n_Get (snd (rssi_reads E_rssi_once 3 (snd (rssi E_rssi_once __init__)))) = 4.
Proof.
  apply (rssi_keeps_last_known_value E_rssi_once 3
           (snd (rssi E_rssi_once __init__)) (DInt (-60))).
  - reflexivity.
  - intros i _. exists NoReply. reflexivity.
Defined.

Lemma prop_get_outcome_inversion_witness :
  ∃ e0 e1 e2,
    props_Get E_down 0 _INTERFACE "Address" = inl e0
    ∧ props_Get E_down 1 _INTERFACE "Address" = inl e1
    ∧ props_Get E_down 2 _INTERFACE "Address" = inl e2
    ∧ DBusExc NoReply = DBusExc e2.
Proof.
  destruct (prop_get_outcome_inversion E_down "Address" __init__) as [H _].
  apply (H (DBusExc NoReply)). reflexivity.
Defined.

Lemma advertised_data_policy_witness :
  fst (advertised_data canonical_str E_no_property BATTERY_UUID __init__) = Return None
  ∧ fst (advertised_data canonical_str E_down BATTERY_UUID __init__)
    = Raise (DBusExc NoReply).
Proof.
  split.
  - destruct (advertised_data_policy canonical_str E_no_property BATTERY_UUID __init__)
      as (_ & H & _).
    apply (H UnknownProperty); reflexivity.
  - destruct (advertised_data_policy canonical_str E_down BATTERY_UUID __init__)
      as (_ & _ & H).
    apply (H NoReply); [reflexivity|]. apply String.eqb_neq. reflexivity.
Defined.

Lemma advertised_malformed_value_raises_witness :
  fst (advertised canonical_parse E_malformed __init__)
  = Raise (ValueError "badly formed hexadecimal UUID string").
Proof.
  apply (advertised_malformed_value_raises canonical_parse E_malformed __init__
           ["6e400001-b5a3-f393-e0a9-e50e24dcca9e"; "battery"]).
  - reflexivity.
  - apply Exists_cons_tl, Exists_cons_hd. reflexivity.
Defined.

Lemma handler_only_sets_latches_witness :
  deliver [Connected_is true; Connected_is false] __init__
  = deliver [Connected_is false; Connected_is true] __init__.
Proof.
  destruct (handler_only_sets_latches [Connected_is true; Connected_is false]
              [Connected_is false; Connected_is true] __init__) as (_ & _ & H).
  apply H. apply Permutation_swap.
Defined.

Lemma connect_returns_only_when_notified_witness :
  device_reply (E_notifies true) 0 = None
  ∧ ∃ n, n ∈ (dispatched (E_notifies true) 0 ++ dispatched (E_notifies true) 1)%list
         ∧ n_iface n = _INTERFACE
         ∧ ∃ v, n_changed_props n !! "Connected" = Some v ∧ py_eq_int v 1 = true.
Proof.
  apply (connect_returns_only_when_notified (E_notifies true) 30 __init__).
  reflexivity.
Defined.

Lemma disconnect_raises_only_timeout_witness :
  DisconnectTimeout = DisconnectTimeout
  ∧ device_reply E_down 0 = None
  ∧ existsb (fires disconnected_signal) (dispatched E_down 0 ++ dispatched E_down 1)
    = false.
Proof.
  apply (disconnect_raises_only_timeout E_down 30 __init__ DisconnectTimeout).
  reflexivity.
Defined.

Lemma connected_latch_survives_disconnect_witness :
  fst (disconnect E_cycle 30 (snd (connect E_cycle 30 __init__))) = Return tt
  ∧ _connected (snd (disconnect E_cycle 30 (snd (connect E_cycle 30 __init__)))) = true.
Proof.
  split; [reflexivity|].
  apply (connected_latch_survives_disconnect E_cycle 30 30 __init__). reflexivity.
Defined.

Lemma discover_expectations_are_sets_witness :
  discover canonical_parse E_discovering 3 [UART_UUID; UART_UUID] [UART_TX; UART_RX]
           30 __init__
  = discover canonical_parse E_discovering 3 [UART_UUID] [UART_RX; UART_TX; UART_RX]
             30 __init__.
Proof.
  apply discover_expectations_are_sets; intros u;
    rewrite !elem_of_cons, !elem_of_nil; tauto.
Defined.

Lemma discover_poll_error_propagates_witness :
  ∃ e, fst <$> discover canonical_parse E_drops 2 [UART_UUID] [] 30 __init__
       = Some (Raise e)
       ∧ (seen_services canonical_parse E_drops 1 = Raise e
          ∨ char_uuids E_drops 1 = inl e).
Proof.
  apply (discover_poll_error_propagates canonical_parse E_drops [UART_UUID] [] 30
           __init__ 1).
  - intros [|i] Hi; [split; vm_compute; reflexivity|lia].
  - vm_compute. reflexivity.
  - lia.
Defined.

Lemma discover_needs_the_clock_witness :
  discover canonical_parse E_uart 1000 [BATTERY_UUID] [] 30 __init__ = None.
Proof.
  apply (discover_needs_the_clock canonical_parse E_uart [BATTERY_UUID] [] 30 __init__).
  intros i. split; vm_compute; reflexivity.
Defined.

Lemma discover_returns_by_the_timeout_witness :
  ∃ b s', discover canonical_parse E_discovering 5 [BATTERY_UUID] [] 2 __init__
          = Some (Return b, s')
          ∧ (n_Get s' ≤ 2)%nat.
Proof.
  apply (discover_returns_by_the_timeout canonical_parse E_discovering
           [BATTERY_UUID] [] 2 __init__ 1).
  - intros [|[|i]] Hi; [vm_compute; discriminate ..|lia].
  - vm_compute. discriminate.
  - lia.
Defined.

Lemma discover_result_sound_witness :
  ∃ k adv, seen_services canonical_parse E_discovering k = Return adv
           ∧ UART_UUID ∈ adv.
Proof.
  destruct (discover_result_sound canonical_parse E_discovering 3
              [UART_UUID] [UART_TX; UART_RX] 30 __init__
              (after_queries (Nat.iter 2 after_idle_poll
                                (tick_time (record EvTime __init__)))) true)
    as (k & _ & _ & _ & H).
  - vm_compute. reflexivity.
  - destruct (H eq_refl) as (adv & chars & Hadv & _ & Hs & _).
    exists k, adv. split; [exact Hadv|]. apply Hs. apply list_elem_of_here.
Defined.
